(** * js-storage: a typed codec over the browser's Web Storage

    The repository is one file, [src/index.js].  Its class [Storage] wraps
    [window.sessionStorage] or [window.localStorage], both of which store
    strings only, and offers four methods:

    - [has(key)], [remove(key)],
    - [set(key, value)], which writes [encode(value)], a string made of an
      eight character tag, a separator and a payload,
    - [get(key, default_value)], which reads the slot, runs [decode] and
      falls back to [default_value] when the decoded value is falsy.

    The constructor only selects which of the two Storage objects of the
    window the private field [#storage] is; [useSessionStorage] and
    [useLocalStorage] only call [get], [set] and [remove].

    This development embeds the four methods as Rocq functions and proves
    the properties of the specification about them.

    The file is organised as follows.

    - [completion]: normal return or thrown exception.
    - JavaScript strings, numbers, dates and values, with the conversions
      that ECMA-262 defines completely ([ToBoolean], [ToString],
      [Number::toString], [StringToNumber], [Date.prototype.toUTCString]).
    - [Platform]: the built-ins of the host that the codec calls and that
      are too large or implementation-defined to be written out here (the
      rounding of a decimal literal to a double, the shortest digits of a
      double, [Date.parse], the pattern syntax check of [RegExp], the
      [source] getter of a pattern, [JSON.parse], [JSON.stringify]).  The
      codec is a function of the platform, and every general theorem holds
      for every platform.
    - The Web Storage back end as a finite map from keys to strings.
    - The codec: [has], [remove], [decode], [get], [encode], [set].
    - [Reference]: an executable platform, used to run the codec on
      concrete inputs.
    - The theorems. *)

From Stdlib Require Import ZArith String Ascii List Bool Lia DecimalString.
From Stdlib Require Import Floats.SpecFloat.
From stdpp Require Import gmap strings.

(** * Completions

    A JavaScript call either returns or throws.  The exceptions that the
    built-ins called by the codec can throw are listed by origin. *)

Inductive exception : Type :=
| JSONSyntaxError      (* SyntaxError thrown by JSON.parse *)
| RegExpSyntaxError    (* SyntaxError thrown by new RegExp(pattern) *)
| JSONTypeError        (* TypeError thrown by JSON.stringify (BigInt) *)
| SymbolTypeError.     (* TypeError thrown by ToString on a Symbol *)

Inductive completion (A : Type) : Type :=
| Normal (a : A)
| Throw (e : exception).

Arguments Normal {A} a.
Arguments Throw {A} e.

#[global] Instance completion_ret : MRet completion := @Normal.

#[global] Instance completion_bind : MBind completion :=
  fun A B (k : A → completion B) (c : completion A) =>
    match c with
    | Normal a => k a
    | Throw e => Throw e
    end.

Definition throws {A : Type} (c : completion A) : Prop := ∃ e, c = Throw e.

Definition returns {A : Type} (c : completion A) : Prop := ∃ a, c = Normal a.

(** * JavaScript strings

    A string is a sequence of code units; [string] gives the code units
    below 256.  [String.length] is the [length] property. *)

(** [s.substring(start, end)] on non-negative integer arguments: both are
    clamped to the length and swapped when out of order. *)
Definition substring (s : string) (start fin : nat) : string :=
  let len := String.length s in
  let a := Nat.min start len in
  let b := Nat.min fin len in
  String.substring (Nat.min a b) (Nat.max a b - Nat.min a b) s.

(** [s.substring(start)]: the end defaults to the length. *)
Definition substring_from (s : string) (start : nat) : string :=
  substring s start (String.length s).

Fixpoint repeat_string (n : nat) (s : string) : string :=
  match n with
  | O => ""
  | S n' => s +:+ repeat_string n' s
  end.

Definition decimal_of_N (n : N) : string :=
  NilZero.string_of_uint (N.to_uint n).

Definition decimal_of_Z (z : Z) : string :=
  NilZero.string_of_int (Z.to_int z).

(** ToZeroPaddedDecimalString(n, minLength) of ECMA-262. *)
Definition ToZeroPaddedDecimalString (n : N) (minLength : nat) : string :=
  let s := decimal_of_N n in
  repeat_string (minLength - String.length s) "0" +:+ s.

(** * Numbers

    A Number is an IEEE 754 binary64 value: [spec_float] of the standard
    library, with [S754_finite s m e] standing for (-1)^s * m * 2^e. *)

Definition number : Type := spec_float.

(** The mathematical value of a numeric literal: an infinity, or
    (-1)^neg * digits * 10^exponent. *)
Inductive MV : Type :=
| MV_Infinity (neg : bool)
| MV_decimal (neg : bool) (digits : N) (exponent : Z).

Module Literal.

(** The grammar StringNumericLiteral of ECMA-262 (7.1.4.1.1). *)

Definition code (c : ascii) : N := N_of_ascii c.

(** StrWhiteSpaceChar: TAB, LF, VT, FF, CR, SP and NBSP are the white space
    and line terminator code units below 256. *)
Definition StrWhiteSpaceChar (c : ascii) : bool :=
  let n := code c in
  ((9 <=? n) && (n <=? 13) || (n =? 32) || (n =? 160))%N.

Definition DecimalDigit (c : ascii) : option N :=
  let n := code c in
  if ((48 <=? n) && (n <=? 57))%N then Some (n - 48)%N else None.

Definition HexDigit (c : ascii) : option N :=
  let n := code c in
  if ((48 <=? n) && (n <=? 57))%N then Some (n - 48)%N
  else if ((97 <=? n) && (n <=? 102))%N then Some (n - 87)%N
  else if ((65 <=? n) && (n <=? 70))%N then Some (n - 55)%N
  else None.

Definition OctalDigit (c : ascii) : option N :=
  let n := code c in
  if ((48 <=? n) && (n <=? 55))%N then Some (n - 48)%N else None.

Definition BinaryDigit (c : ascii) : option N :=
  let n := code c in
  if ((48 <=? n) && (n <=? 49))%N then Some (n - 48)%N else None.

(** The longest prefix of digits, most significant first, and the rest. *)
Fixpoint digits (digit : ascii → option N) (s : string) : list N * string :=
  match s with
  | EmptyString => ([], EmptyString)
  | String c s' =>
      match digit c with
      | Some d => let '(ds, rest) := digits digit s' in (d :: ds, rest)
      | None => ([], s)
      end
  end.

Definition value_of (radix : N) (ds : list N) : N :=
  fold_left (fun acc d => (radix * acc + d)%N) ds 0%N.

Fixpoint trim_start (s : string) : string :=
  match s with
  | String c s' => if StrWhiteSpaceChar c then trim_start s' else s
  | EmptyString => EmptyString
  end.

Definition rev (s : string) : string :=
  string_of_list_ascii (List.rev (list_ascii_of_string s)).

Definition trim (s : string) : string :=
  rev (trim_start (rev (trim_start s))).

(** A sign, then the rest. *)
Definition sign (s : string) : bool * string :=
  match s with
  | String "-" s' => (true, s')
  | String "+" s' => (false, s')
  | _ => (false, s)
  end.

(** ExponentPart_opt at the end of the literal: the exponent, when the
    whole of [s] is an exponent part or empty. *)
Definition ExponentPart_opt (s : string) : option Z :=
  match s with
  | EmptyString => Some 0%Z
  | String c s' =>
      if (Ascii.eqb c "e" || Ascii.eqb c "E")%bool then
        let '(neg, s'') := sign s' in
        match digits DecimalDigit s'' with
        | ((_ :: _) as ds, EmptyString) =>
            let e := Z.of_N (value_of 10 ds) in
            Some (if neg then (- e)%Z else e)
        | _ => None
        end
      else None
  end.

(** StrUnsignedDecimalLiteral, the case Infinity apart:
    DecimalDigits . DecimalDigits_opt ExponentPart_opt,
    . DecimalDigits ExponentPart_opt, or DecimalDigits ExponentPart_opt. *)
Definition StrUnsignedDecimalLiteral (s : string) : option (N * Z) :=
  let '(ip, r1) := digits DecimalDigit s in
  let '(fp, r2) :=
    match r1 with
    | String "." r => digits DecimalDigit r
    | _ => ([], r1)
    end in
  match ip ++ fp with
  | [] => None
  | ds =>
      match ExponentPart_opt r2 with
      | Some e => Some (value_of 10 ds, (e - Z.of_nat (length fp))%Z)
      | None => None
      end
  end.

Definition StrDecimalLiteral (s : string) : option MV :=
  let '(neg, u) := sign s in
  if String.eqb u "Infinity" then Some (MV_Infinity neg)
  else
    match StrUnsignedDecimalLiteral u with
    | Some (m, e) => Some (MV_decimal neg m e)
    | None => None
    end.

(** NonDecimalIntegerLiteral: 0b, 0o or 0x (either case) and at least one
    digit of that radix; no sign. *)
Definition NonDecimalIntegerLiteral (s : string) : option MV :=
  match s with
  | String "0" (String p r) =>
      let literal (radix : N) (digit : ascii → option N) :=
        match digits digit r with
        | ((_ :: _) as ds, EmptyString) => Some (MV_decimal false (value_of radix ds) 0)
        | _ => None
        end in
      if (Ascii.eqb p "x" || Ascii.eqb p "X")%bool then literal 16%N HexDigit
      else if (Ascii.eqb p "o" || Ascii.eqb p "O")%bool then literal 8%N OctalDigit
      else if (Ascii.eqb p "b" || Ascii.eqb p "B")%bool then literal 2%N BinaryDigit
      else None
  | _ => None
  end.

(** StringNumericLiteral: optional white space around an optional
    StrNumericLiteral.  [None] when [s] is not in the grammar; the empty
    and the all-blank string have the value 0. *)
Definition StringNumericLiteral (s : string) : option MV :=
  match trim s with
  | EmptyString => Some (MV_decimal false 0 0)
  | t =>
      match NonDecimalIntegerLiteral t with
      | Some mv => Some mv
      | None => StrDecimalLiteral t
      end
  end.

End Literal.

(** * Values

    The primitives, and the objects that the codec tells apart: dates,
    patterns, functions, and the arrays and plain objects that go through
    JSON.  A date is its time value, in milliseconds since the epoch, [None]
    for the NaN of an Invalid Date.  A pattern is its two internal slots
    [[OriginalSource]] and [[OriginalFlags]].  A function is the text that
    [Function.prototype.toString] returns for it.  An object is the list of
    its own enumerable string-keyed properties in enumeration order. *)

Inductive Primitive : Type :=
| PUndefined
| PNull
| PBoolean (b : bool)
| PNumber (x : number)
| PBigInt (z : Z)
| PString (s : string)
| PSymbol (description : string).

#[warnings="-register-all"]
Inductive Value : Type :=
| VPrimitive (p : Primitive)
| VDate (tv : option Z)
| VRegExp (OriginalSource OriginalFlags : string)
| VFunction (text : string)
| VArray (elements : list Value)
| VObject (properties : list (string * Value)).

Coercion VPrimitive : Primitive >-> Value.

Definition undefined : Value := PUndefined.

(** ToBoolean of ECMA-262 (7.1.2): undefined, null, false, +0, -0, NaN, 0n
    and the empty string are falsy; every object is truthy. *)
Definition ToBoolean (v : Value) : bool :=
  match v with
  | VPrimitive PUndefined => false
  | VPrimitive PNull => false
  | VPrimitive (PBoolean b) => b
  | VPrimitive (PNumber (S754_zero _)) => false
  | VPrimitive (PNumber S754_nan) => false
  | VPrimitive (PNumber _) => true
  | VPrimitive (PBigInt z) => negb (z =? 0)%Z
  | VPrimitive (PString s) => negb (String.length s =? 0)%nat
  | VPrimitive (PSymbol _) => true
  | VDate _ | VRegExp _ _ | VFunction _ | VArray _ | VObject _ => true
  end.

(** * The platform

    The built-ins of the host that the codec calls and that this file does
    not write out. *)

Class Numerics : Type := {
  (** The Number value for m * 10^e, m positive: the double nearest to it,
      ties to even; +0 on underflow and +Infinity on overflow. *)
  RoundMV : positive → Z → number;
  (** Step 5 of Number::toString for the positive finite x = m * 2^e: the
      pair (s, n) such that s has as few decimal digits k as possible and
      s * 10^(n - k) rounds to x. *)
  ShortestDigits : positive → Z → positive * Z
}.

Class Platform : Type := {
  Platform_Numerics :: Numerics;
  (** Date.parse: a time value, or [None] for NaN.  The formats accepted
      beyond the ISO format are implementation-defined. *)
  Date_parse : string → option Z;
  (** Whether a pattern text, with no flags, is a Pattern of the regular
      expression grammar without early error. *)
  ParsePattern : string → bool;
  (** EscapeRegExpPattern(P, F): the text that the [source] getter returns
      for a pattern created from P with the flags F. *)
  EscapeRegExpPattern : string → string → string;
  (** JSON.parse without reviver: the value, or [None] when the text is
      not valid JSON. *)
  JSON_parse : string → option Value;
  (** JSON.stringify without replacer and indent: the text, [None] when
      the result is undefined, or a thrown TypeError. *)
  JSON_stringify : Value → completion (option string)
}.

Section Conversions.

Context {host : Numerics}.

(** StringToNumber of ECMA-262 (7.1.4.1.1): NaN when the string is not a
    StringNumericLiteral, otherwise its mathematical value rounded; a zero
    takes the sign of the literal. *)
Definition StringToNumber (s : string) : number :=
  match Literal.StringNumericLiteral s with
  | None => S754_nan
  | Some (MV_Infinity neg) => S754_infinity neg
  | Some (MV_decimal neg N0 _) => S754_zero neg
  | Some (MV_decimal neg (Npos m) e) =>
      if neg then SFopp (RoundMV m e) else RoundMV m e
  end.

(** Steps 6 to 10 of Number::toString (6.1.6.1.20) in radix 10, on the
    digits s and the exponent n of step 5. *)
Definition format_digits (s : positive) (n : Z) : string :=
  let ds := decimal_of_N (Npos s) in
  let k := Z.of_nat (String.length ds) in
  if ((k <=? n) && (n <=? 21))%Z then
    ds +:+ repeat_string (Z.to_nat (n - k)) "0"
  else if ((0 <? n) && (n <=? 21))%Z then
    substring ds 0 (Z.to_nat n) +:+ "." +:+ substring_from ds (Z.to_nat n)
  else if ((-6 <? n) && (n <=? 0))%Z then
    "0." +:+ repeat_string (Z.to_nat (- n)) "0" +:+ ds
  else
    let c := if (n - 1 <? 0)%Z then "-" else "+" in
    let e := decimal_of_N (Z.abs_N (n - 1)) in
    if (k =? 1)%Z then ds +:+ "e" +:+ c +:+ e
    else substring ds 0 1 +:+ "." +:+ substring_from ds 1 +:+ "e" +:+ c +:+ e.

(** Number::toString(x, 10). *)
Definition NumberToString (x : number) : string :=
  match x with
  | S754_nan => "NaN"
  | S754_zero _ => "0"
  | S754_infinity neg => if neg then "-Infinity" else "Infinity"
  | S754_finite neg m e =>
      let '(s, n) := ShortestDigits m e in
      if neg then "-" +:+ format_digits s n else format_digits s n
  end.

(** ToString of ECMA-262 (7.1.17) on a primitive. *)
Definition ToString (p : Primitive) : completion string :=
  match p with
  | PUndefined => Normal "undefined"
  | PNull => Normal "null"
  | PBoolean b => Normal (if b then "true" else "false")
  | PNumber x => Normal (NumberToString x)
  | PBigInt z => Normal (decimal_of_Z z)
  | PString s => Normal s
  | PSymbol _ => Throw SymbolTypeError
  end.

End Conversions.

(** * Dates

    Time values and the calendar functions of ECMA-262 (21.4.1), on the
    integers; [/] and [mod] round towards minus infinity as floor and
    modulo do. *)

Module Calendar.

Local Open Scope Z_scope.

Definition msPerSecond : Z := 1000.
Definition msPerMinute : Z := 60000.
Definition msPerHour : Z := 3600000.
Definition msPerDay : Z := 86400000.

Definition Day (t : Z) : Z := t / msPerDay.
Definition TimeWithinDay (t : Z) : Z := t mod msPerDay.

Definition DaysInYear (y : Z) : Z :=
  if negb (y mod 4 =? 0) then 365
  else if negb (y mod 100 =? 0) then 366
  else if negb (y mod 400 =? 0) then 365
  else 366.

Definition DayFromYear (y : Z) : Z :=
  365 * (y - 1970) + (y - 1969) / 4 - (y - 1901) / 100 + (y - 1601) / 400.

Definition TimeFromYear (y : Z) : Z := msPerDay * DayFromYear y.

(** The largest year that starts at or before [t], searched downwards. *)
Fixpoint year_at_or_below (fuel : nat) (y t : Z) : Z :=
  match fuel with
  | O => y
  | S fuel' => if TimeFromYear y <=? t then y else year_at_or_below fuel' (y - 1) t
  end.

(** YearFromTime(t): the largest y with TimeFromYear(y) <= t.  A year has
    between 365 and 366 days, so the search starts one year above the year
    that the mean length 146097 / 400 gives, and ends within three. *)
Definition YearFromTime (t : Z) : Z :=
  year_at_or_below 3 (1970 + (Day t * 400) / 146097 + 1) t.

Definition InLeapYear (t : Z) : Z :=
  if DaysInYear (YearFromTime t) =? 366 then 1 else 0.

Definition DayWithinYear (t : Z) : Z := Day t - DayFromYear (YearFromTime t).

Definition MonthFromTime (t : Z) : Z :=
  let d := DayWithinYear t in
  let l := InLeapYear t in
  if d <? 31 then 0
  else if d <? 59 + l then 1
  else if d <? 90 + l then 2
  else if d <? 120 + l then 3
  else if d <? 151 + l then 4
  else if d <? 181 + l then 5
  else if d <? 212 + l then 6
  else if d <? 243 + l then 7
  else if d <? 273 + l then 8
  else if d <? 304 + l then 9
  else if d <? 334 + l then 10
  else 11.

Definition DateFromTime (t : Z) : Z :=
  let d := DayWithinYear t in
  let l := InLeapYear t in
  match MonthFromTime t with
  | 0 => d + 1
  | 1 => d - 30
  | 2 => d - 58 - l
  | 3 => d - 89 - l
  | 4 => d - 119 - l
  | 5 => d - 150 - l
  | 6 => d - 180 - l
  | 7 => d - 211 - l
  | 8 => d - 242 - l
  | 9 => d - 272 - l
  | 10 => d - 303 - l
  | _ => d - 333 - l
  end.

Definition WeekDay (t : Z) : Z := (Day t + 4) mod 7.

Definition HourFromTime (t : Z) : Z := (t / msPerHour) mod 24.
Definition MinFromTime (t : Z) : Z := (t / msPerMinute) mod 60.
Definition SecFromTime (t : Z) : Z := (t / msPerSecond) mod 60.
Definition msFromTime (t : Z) : Z := t mod msPerSecond.

Definition weekday_name (d : Z) : string :=
  match d with
  | 0 => "Sun" | 1 => "Mon" | 2 => "Tue" | 3 => "Wed"
  | 4 => "Thu" | 5 => "Fri" | _ => "Sat"
  end.

Definition month_name (m : Z) : string :=
  match m with
  | 0 => "Jan" | 1 => "Feb" | 2 => "Mar" | 3 => "Apr"
  | 4 => "May" | 5 => "Jun" | 6 => "Jul" | 7 => "Aug"
  | 8 => "Sep" | 9 => "Oct" | 10 => "Nov" | _ => "Dec"
  end.

(** TimeString(tv): hh:mm:ss GMT. *)
Definition TimeString (tv : Z) : string :=
  ToZeroPaddedDecimalString (Z.to_N (HourFromTime tv)) 2 +:+ ":" +:+
  ToZeroPaddedDecimalString (Z.to_N (MinFromTime tv)) 2 +:+ ":" +:+
  ToZeroPaddedDecimalString (Z.to_N (SecFromTime tv)) 2 +:+ " GMT".

(** Date.prototype.toUTCString (21.4.4.43). *)
Definition toUTCString (tv : option Z) : string :=
  match tv with
  | None => "Invalid Date"
  | Some tv =>
      let yv := YearFromTime tv in
      weekday_name (WeekDay tv) +:+ ", " +:+
      ToZeroPaddedDecimalString (Z.to_N (DateFromTime tv)) 2 +:+ " " +:+
      month_name (MonthFromTime tv) +:+ " " +:+
      (if 0 <=? yv then "" else "-") +:+
      ToZeroPaddedDecimalString (Z.abs_N yv) 4 +:+ " " +:+
      TimeString tv
  end.

(** TimeClip (21.4.1.31): a time value beyond 8.64e15 ms is NaN. *)
Definition TimeClip (time : option Z) : option Z :=
  match time with
  | Some t => if Z.abs t <=? 8640000000000000 then Some t else None
  | None => None
  end.

(** MakeDay, MakeTime and MakeDate (21.4.1.28-30) on a month in 0..11. *)
Definition MakeDay (year month date : Z) : Z :=
  let l := if DaysInYear year =? 366 then 1 else 0 in
  let first :=
    match month with
    | 0 => 0 | 1 => 31 | 2 => 59 + l | 3 => 90 + l
    | 4 => 120 + l | 5 => 151 + l | 6 => 181 + l | 7 => 212 + l
    | 8 => 243 + l | 9 => 273 + l | 10 => 304 + l | _ => 334 + l
    end in
  DayFromYear year + first + date - 1.

Definition MakeTime (hour min sec ms : Z) : Z :=
  hour * msPerHour + min * msPerMinute + sec * msPerSecond + ms.

Definition MakeDate (day time : Z) : Z := day * msPerDay + time.

(** A time value without its milliseconds. *)
Definition whole_seconds (t : Z) : Z := t - t mod msPerSecond.

End Calendar.

(** * The Web Storage back end

    [window.sessionStorage] and [window.localStorage] are Storage objects of
    the HTML standard: a map from string keys to string values.  [getItem]
    returns null for a key that has no slot; [setItem] converts its value
    argument to a string; [removeItem] does nothing when the key has no
    slot. *)

Section WebStorage.

Context {host : Numerics}.

Definition getItem (storage : gmap string string) (key : string) : Primitive :=
  match storage !! key with
  | Some s => PString s
  | None => PNull
  end.

Definition setItem (storage : gmap string string) (key : string) (value : Primitive)
  : completion (gmap string string) :=
  s ← ToString value; mret (<[key := s]> storage).

Definition removeItem (storage : gmap string string) (key : string)
  : gmap string string :=
  delete key storage.

End WebStorage.

(** IsStrictlyEqual of ECMA-262 (7.2.15) on primitives: same type and same
    value; NaN differs from itself and the two zeros are equal.  A symbol
    stands here for the one symbol of its description. *)
Definition IsStrictlyEqual (x y : Primitive) : bool :=
  match x, y with
  | PUndefined, PUndefined => true
  | PNull, PNull => true
  | PBoolean a, PBoolean b => Bool.eqb a b
  | PNumber a, PNumber b => SFeqb a b
  | PBigInt a, PBigInt b => (a =? b)%Z
  | PString a, PString b => String.eqb a b
  | PSymbol a, PSymbol b => String.eqb a b
  | _, _ => false
  end.

(** * The codec: class Storage of src/index.js

    The private field [#storage] is the back end that the constructor
    selected; the methods take its content and, when they write, return the
    new content. *)

Section Storage.

Context {host : Platform}.

(** [has(key)]: [this.#storage.getItem( key ) !== undefined]. *)
Definition has (storage : gmap string string) (key : string) : bool :=
  negb (IsStrictlyEqual (getItem storage key) PUndefined).

(** [remove(key)]: [this.#storage.removeItem( key )]. *)
Definition remove (storage : gmap string string) (key : string) : gmap string string :=
  removeItem storage key.

(** [new Date(source)] on a string: the parsed time value, clipped. *)
Definition new_Date (source : string) : Value :=
  VDate (Calendar.TimeClip (Date_parse source)).

(** [new RegExp(source)]: a pattern with the source as given and no flags,
    or the SyntaxError of a text that is not a pattern. *)
Definition new_RegExp (source : string) : completion Value :=
  if ParsePattern source then Normal (VRegExp source "") else Throw RegExpSyntaxError.

(** [JSON.parse(source)]. *)
Definition JSON_parse_call (source : string) : completion Value :=
  match JSON_parse source with
  | Some v => Normal v
  | None => Throw JSONSyntaxError
  end.

(** The arrow function [decode] of [get].  [value?.length || 0] is the
    length of a string and 0 for null. *)
Definition decode (value : Primitive) : completion Value :=
  match value with
  | PString s =>
      if (String.length s <? 10)%nat then Normal undefined
      else
        let source := substring_from s 9 in
        let tag := substring s 0 8 in
        if String.eqb tag "__date__" then Normal (new_Date source)
        else if String.eqb tag "__expr__" then new_RegExp source
        else if String.eqb tag "__numb__" then Normal (VPrimitive (PNumber (StringToNumber source)))
        else if String.eqb tag "__bool__" then Normal (VPrimitive (PBoolean (String.eqb source "1")))
        else if String.eqb tag "__strn__" then Normal (VPrimitive (PString source))
        else if String.eqb tag "__objt__" then JSON_parse_call source
        else Normal (VPrimitive (PString s))
  | _ => Normal undefined
  end.

(** [get(key, default_value = undefined)]. *)
Definition get (storage : gmap string string) (key : string) (default_value : Value)
  : completion Value :=
  value ← decode (getItem storage key);
  if ToBoolean value then Normal value else Normal default_value.

(** The [source] getter of a pattern. *)
Definition RegExp_source (OriginalSource OriginalFlags : string) : string :=
  EscapeRegExpPattern OriginalSource OriginalFlags.

(** The arrow function [encode] of [set].  The tests of the source are
    disjoint on the values of this model: the class Date, the class RegExp,
    the types number, boolean, string and function, any other object
    ([value === Object( value )]), and at last the remaining primitives,
    returned as they are. *)
Definition encode (value : Value) : completion Primitive :=
  match value with
  | VDate tv => Normal (PString ("__date__|" +:+ Calendar.toUTCString tv))
  | VRegExp src flags => Normal (PString ("__expr__|" +:+ RegExp_source src flags))
  | VPrimitive (PNumber x) => Normal (PString ("__numb__|" +:+ NumberToString x))
  | VPrimitive (PBoolean b) => Normal (PString ("__bool__|" +:+ (if b then "1" else "0")))
  | VPrimitive (PString s) => Normal (PString ("__strn__|" +:+ s))
  | VFunction text => Normal (PString ("__strn__|" +:+ text))
  | VArray _ | VObject _ =>
      json ← JSON_stringify value;
      Normal (PString ("__objt__|" +:+ default "undefined" json))
  | VPrimitive p => Normal p
  end.

(** [set(key, value)]: [this.#storage.setItem( key, encode( value ) )]. *)
Definition set (storage : gmap string string) (key : string) (value : Value)
  : completion (gmap string string) :=
  encoded ← encode value; setItem storage key encoded.

End Storage.

(** * A reference platform

    An executable platform, to run the codec on concrete values.  Its
    number conversions and its JSON follow ECMA-262, on strings of code
    units below 256.  Its [Date.parse] reads the format of [toUTCString]
    and answers NaN on any other text; its pattern check looks only for a
    dangling backslash, an unterminated class and unbalanced group
    parentheses.  The general theorems do not depend on it. *)

Module Reference.

Local Open Scope Z_scope.

(** ** Numbers *)

(** The double nearest to m * 10^e, by exact integer arithmetic. *)
Definition round_decimal (m : positive) (e : Z) : number :=
  if 0 <=? e then binary_normalize 53 1024 (Zpos m * 10 ^ e) 0 false
  else
    let '(q, e', l) := SFdiv_core_binary 53 1024 (Zpos m) 0 (10 ^ (- e)) 0 in
    binary_round_aux 53 1024 false q e' l.

(** The number of decimal digits of the integer part of num / den, or for
    a quotient below 1 minus the number of zeros after the point: the n
    with 10^(n-1) <= num / den < 10^n. *)
Fixpoint magnitude_below (fuel : nat) (num den n : Z) : Z :=
  match fuel with
  | O => n
  | S fuel' => if den <=? num then n else magnitude_below fuel' (10 * num) den (n - 1)
  end.

Definition magnitude (num den : Z) : Z :=
  if den <=? num then Z.of_nat (String.length (decimal_of_Z (num / den)))
  else magnitude_below 400 (10 * num) den 0.

(** The candidates with k digits for num / den of magnitude n, nearest
    first, that round to x. *)
Definition candidates (x : number) (num den n k : Z) : list (positive * Z) :=
  let scale_num := if 0 <=? n - k then 1 else 10 ^ (k - n) in
  let scale_den := if 0 <=? n - k then 10 ^ (n - k) else 1 in
  let lo := (num * scale_num) / (den * scale_den) in
  let r := (num * scale_num) mod (den * scale_den) in
  let up_first := den * scale_den <? 2 * r in
  let normal (s : Z) : positive * Z :=
    if s =? 10 ^ k then (Z.to_pos (10 ^ (k - 1)), n + 1) else (Z.to_pos s, n) in
  let ok (c : positive * Z) : bool :=
    match SFcompare (round_decimal (fst c) (snd c - k)) x with
    | Some Eq => true
    | _ => false
    end in
  filter (fun c => ok c)
    (map normal (if up_first then [lo + 1; lo] else [lo; lo + 1])).

Fixpoint shortest (fuel : nat) (x : number) (num den n k : Z) : positive * Z :=
  match fuel with
  | O => (1%positive, 0)
  | S fuel' =>
      match candidates x num den n k with
      | c :: _ => c
      | [] => shortest fuel' x num den n (k + 1)
      end
  end.

Definition shortest_digits (m : positive) (e : Z) : positive * Z :=
  let num := if 0 <=? e then Zpos m * 2 ^ e else Zpos m in
  let den := if 0 <=? e then 1 else 2 ^ (- e) in
  shortest 17 (S754_finite false m e) num den (magnitude num den) 1.

#[export] Instance numerics : Numerics :=
  {| RoundMV := round_decimal; ShortestDigits := shortest_digits |}.

(** ** Dates *)

Definition expect (p s : string) : option string :=
  if String.prefix p s then Some (substring_from s (String.length p)) else None.

(** Exactly two decimal digits. *)
Definition two_digits (s : string) : option (Z * string) :=
  match s with
  | String a (String b r) =>
      match Literal.DecimalDigit a, Literal.DecimalDigit b with
      | Some x, Some y => Some (Z.of_N (10 * x + y), r)
      | _, _ => None
      end
  | _ => None
  end.

Definition weekday (s : string) : option string :=
  let w := substring s 0 3 in
  if existsb (String.eqb w) ["Sun"; "Mon"; "Tue"; "Wed"; "Thu"; "Fri"; "Sat"]
  then Some (substring_from s 3) else None.

Fixpoint index_of (w : string) (names : list string) (i : Z) : option Z :=
  match names with
  | [] => None
  | n :: names' => if String.eqb w n then Some i else index_of w names' (i + 1)
  end.

Definition month (s : string) : option (Z * string) :=
  m ← index_of (substring s 0 3)
        ["Jan"; "Feb"; "Mar"; "Apr"; "May"; "Jun";
         "Jul"; "Aug"; "Sep"; "Oct"; "Nov"; "Dec"] 0;
  Some (m, substring_from s 3).

(** A year: an optional minus sign and at least four digits. *)
Definition year (s : string) : option (Z * string) :=
  let '(neg, u) :=
    match s with
    | String "-" u => (true, u)
    | _ => (false, s)
    end in
  let '(ds, r) := Literal.digits Literal.DecimalDigit u in
  if (4 <=? length ds)%nat then
    let y := Z.of_N (Literal.value_of 10 ds) in
    Some (if neg then - y else y, r)
  else None.

(** Date.parse on the format of toUTCString,
    Www, DD Mmm YYYY HH:MM:SS GMT; NaN on any other text. *)
Definition date_parse (s : string) : option Z :=
  r ← weekday s;
  r ← expect ", " r;
  '(d, r) ← two_digits r;
  r ← expect " " r;
  '(m, r) ← month r;
  r ← expect " " r;
  '(y, r) ← year r;
  r ← expect " " r;
  '(h, r) ← two_digits r;
  r ← expect ":" r;
  '(mi, r) ← two_digits r;
  r ← expect ":" r;
  '(sec, r) ← two_digits r;
  if String.eqb r " GMT" && (1 <=? d) && (d <=? 31) && (h <=? 23) && (mi <=? 59) && (sec <=? 59)
  then Some (Calendar.MakeDate (Calendar.MakeDay y m d) (Calendar.MakeTime h mi sec 0))
  else None.

(** ** Patterns *)

Definition backslash : ascii := "092"%char.

(** Rejects a backslash at the end, a class left open, a closing
    parenthesis without its opening one and a group left open. *)
Fixpoint pattern_scan (s : string) (depth : nat) (in_class : bool) : bool :=
  match s with
  | EmptyString => (depth =? 0)%nat && negb in_class
  | String c r =>
      if Ascii.eqb c "\" then
        match r with
        | EmptyString => false
        | String _ r' => pattern_scan r' depth in_class
        end
      else if in_class then pattern_scan r depth (negb (Ascii.eqb c "]"))
      else if Ascii.eqb c "[" then pattern_scan r depth true
      else if Ascii.eqb c "(" then pattern_scan r (S depth) false
      else if Ascii.eqb c ")" then
        match depth with
        | O => false
        | S depth' => pattern_scan r depth' false
        end
      else pattern_scan r depth false
  end.

Definition parse_pattern (p : string) : bool := pattern_scan p 0 false.

(** The source text of a pattern: (?:) for the empty pattern; a solidus
    outside a class gets a backslash and a line terminator its escape. *)
Fixpoint escape_scan (s : string) (in_class : bool) : string :=
  match s with
  | EmptyString => EmptyString
  | String c r =>
      if Ascii.eqb c "\" then
        match r with
        | EmptyString => String c EmptyString
        | String c' r' => String c (String c' (escape_scan r' in_class))
        end
      else if Ascii.eqb c "/" && negb in_class then "\/" +:+ escape_scan r in_class
      else if Ascii.eqb c "010" then "\n" +:+ escape_scan r in_class
      else if Ascii.eqb c "013" then "\r" +:+ escape_scan r in_class
      else if Ascii.eqb c "[" then String c (escape_scan r true)
      else if Ascii.eqb c "]" then String c (escape_scan r false)
      else String c (escape_scan r in_class)
  end.

Definition escape_pattern (p flags : string) : string :=
  match p with
  | EmptyString => "(?:)"
  | _ => escape_scan p false
  end.

(** ** JSON *)

Definition quote : ascii := "034"%char.

Definition hex_digit (n : N) : ascii :=
  ascii_of_N (if (n <? 10)%N then 48 + n else 87 + n).

(** QuoteJSONString (25.5.2.3) on code units below 256. *)
Fixpoint quote_chars (s : string) : string :=
  match s with
  | EmptyString => String quote EmptyString
  | String c r =>
      let n := Literal.code c in
      let escaped (e : ascii) := String backslash (String e (quote_chars r)) in
      if (n =? 8)%N then escaped "b"%char
      else if (n =? 9)%N then escaped "t"%char
      else if (n =? 10)%N then escaped "n"%char
      else if (n =? 12)%N then escaped "f"%char
      else if (n =? 13)%N then escaped "r"%char
      else if (n =? 34)%N then escaped quote
      else if (n =? 92)%N then escaped backslash
      else if (n <? 32)%N then
        String backslash (String "u"%char (String "0"%char (String "0"%char
          (String (hex_digit (n / 16)) (String (hex_digit (n mod 16)) (quote_chars r))))))
      else String c (quote_chars r)
  end.

Definition QuoteJSONString (s : string) : string := String quote (quote_chars s).

(** Date.prototype.toISOString on a finite time value. *)
Definition toISOString (tv : Z) : string :=
  let y := Calendar.YearFromTime tv in
  (if (0 <=? y) && (y <=? 9999) then ToZeroPaddedDecimalString (Z.to_N y) 4
   else (if y <? 0 then "-" else "+") +:+ ToZeroPaddedDecimalString (Z.abs_N y) 6) +:+ "-" +:+
  ToZeroPaddedDecimalString (Z.to_N (Calendar.MonthFromTime tv + 1)) 2 +:+ "-" +:+
  ToZeroPaddedDecimalString (Z.to_N (Calendar.DateFromTime tv)) 2 +:+ "T" +:+
  ToZeroPaddedDecimalString (Z.to_N (Calendar.HourFromTime tv)) 2 +:+ ":" +:+
  ToZeroPaddedDecimalString (Z.to_N (Calendar.MinFromTime tv)) 2 +:+ ":" +:+
  ToZeroPaddedDecimalString (Z.to_N (Calendar.SecFromTime tv)) 2 +:+ "." +:+
  ToZeroPaddedDecimalString (Z.to_N (Calendar.msFromTime tv)) 3 +:+ "Z".

Fixpoint join (sep : string) (parts : list string) : string :=
  match parts with
  | [] => EmptyString
  | [p] => p
  | p :: parts' => p +:+ sep +:+ join sep parts'
  end.

(** SerializeJSONProperty (25.5.2.2): a date goes through its toJSON, a
    number that is not finite and an undefined array element become null,
    a property whose value is undefined, a function or a symbol is left
    out, a BigInt throws. *)
Fixpoint SerializeJSONProperty (v : Value) : completion (option string) :=
  match v with
  | VPrimitive PNull => Normal (Some "null")
  | VPrimitive (PBoolean b) => Normal (Some (if b then "true" else "false"))
  | VPrimitive (PString s) => Normal (Some (QuoteJSONString s))
  | VPrimitive (PNumber x) =>
      Normal (Some match x with
                   | S754_nan | S754_infinity _ => "null"
                   | _ => NumberToString x
                   end)
  | VPrimitive (PBigInt _) => Throw JSONTypeError
  | VPrimitive PUndefined | VPrimitive (PSymbol _) | VFunction _ => Normal None
  | VDate None => Normal (Some "null")
  | VDate (Some tv) => Normal (Some (QuoteJSONString (toISOString tv)))
  | VRegExp _ _ => Normal (Some "{}")
  | VArray elements =>
      parts ← (fix items (l : list Value) : completion (list string) :=
                 match l with
                 | [] => Normal []
                 | e :: l' =>
                     str ← SerializeJSONProperty e;
                     rest ← items l';
                     Normal (default "null" str :: rest)
                 end) elements;
      Normal (Some ("[" +:+ join "," parts +:+ "]"))
  | VObject properties =>
      parts ← (fix members (l : list (string * Value)) : completion (list string) :=
                 match l with
                 | [] => Normal []
                 | (k, e) :: l' =>
                     str ← SerializeJSONProperty e;
                     rest ← members l';
                     Normal match str with
                            | Some t => (QuoteJSONString k +:+ ":" +:+ t) :: rest
                            | None => rest
                            end
                 end) properties;
      Normal (Some ("{" +:+ join "," parts +:+ "}"))
  end.

Definition json_stringify (v : Value) : completion (option string) :=
  SerializeJSONProperty v.

(** The JSON grammar (ECMA-404). *)

Fixpoint skip_ws (s : string) : string :=
  match s with
  | String c r =>
      let n := Literal.code c in
      if ((n =? 32) || (n =? 9) || (n =? 10) || (n =? 13))%N then skip_ws r else s
  | EmptyString => EmptyString
  end.

(** The characters of a string after its opening quote.  An escape
    \uXXXX above 00FF names a code unit that [string] does not have, and
    is refused. *)
Fixpoint string_chars (s : string) : option (string * string) :=
  match s with
  | EmptyString => None
  | String c r =>
      if Ascii.eqb c quote then Some (EmptyString, r)
      else if Ascii.eqb c backslash then
        match r with
        | String e r' =>
            let plain (d : ascii) :=
              '(t, rest) ← string_chars r'; Some (String d t, rest) in
            if Ascii.eqb e quote then plain quote
            else if Ascii.eqb e backslash then plain backslash
            else if Ascii.eqb e "/" then plain "/"%char
            else if Ascii.eqb e "b" then plain "008"%char
            else if Ascii.eqb e "f" then plain "012"%char
            else if Ascii.eqb e "n" then plain "010"%char
            else if Ascii.eqb e "r" then plain "013"%char
            else if Ascii.eqb e "t" then plain "009"%char
            else if Ascii.eqb e "u" then
              match r' with
              | String h1 (String h2 (String h3 (String h4 r''))) =>
                  match Literal.HexDigit h1, Literal.HexDigit h2,
                        Literal.HexDigit h3, Literal.HexDigit h4 with
                  | Some 0%N, Some 0%N, Some a, Some b =>
                      '(t, rest) ← string_chars r'';
                      Some (String (ascii_of_N (16 * a + b)) t, rest)
                  | _, _, _, _ => None
                  end
              | _ => None
              end
            else None
        | EmptyString => None
        end
      else if (Literal.code c <? 32)%N then None
      else '(t, rest) ← string_chars r; Some (String c t, rest)
  end.

(** A number: an optional minus sign; 0, or digits that do not start with
    0; an optional fraction of a point and digits; an optional exponent. *)
Definition json_number (s : string) : option (number * string) :=
  let '(neg, u) :=
    match s with
    | String "-" u => (true, u)
    | _ => (false, s)
    end in
  '(ip, r1) ←
    match u with
    | String "0" r => Some ([0%N], r)
    | _ =>
        match Literal.digits Literal.DecimalDigit u with
        | ([], _) => None
        | p => Some p
        end
    end;
  '(fp, r2) ←
    match r1 with
    | String "." r =>
        match Literal.digits Literal.DecimalDigit r with
        | ([], _) => None
        | p => Some p
        end
    | _ => Some ([], r1)
    end;
  '(e, r3) ←
    match r2 with
    | String c r =>
        if Ascii.eqb c "e" || Ascii.eqb c "E" then
          let '(eneg, r') := Literal.sign r in
          match Literal.digits Literal.DecimalDigit r' with
          | ([], _) => None
          | (ds, rest) =>
              let e := Z.of_N (Literal.value_of 10 ds) in
              Some (if eneg then - e else e, rest)
          end
        else Some (0, r2)
    | EmptyString => Some (0, r2)
    end;
  Some (match Literal.value_of 10 (ip ++ fp) with
        | N0 => S754_zero neg
        | Npos m =>
            let x := RoundMV m (e - Z.of_nat (length fp)) in
            if neg then SFopp x else x
        end, r3).

(** An array index: a canonical numeric string below 2^32 - 1. *)
Definition array_index (k : string) : option N :=
  match Literal.digits Literal.DecimalDigit k with
  | ((_ :: _) as ds, EmptyString) =>
      let n := Literal.value_of 10 ds in
      if String.eqb (decimal_of_N n) k && (n <? 4294967295)%N then Some n else None
  | _ => None
  end.

(** CreateDataProperty on the property list: a key that is present keeps
    its place; a new array index goes among the indices in ascending order,
    which come first; any other new key goes last. *)
Fixpoint define_property (props : list (string * Value)) (k : string) (v : Value)
  : list (string * Value) :=
  match props with
  | [] => [(k, v)]
  | (k', v') :: props' =>
      if String.eqb k' k then (k, v) :: props'
      else if existsb (fun p => String.eqb (fst p) k) props' then
        (k', v') :: define_property props' k v
      else
        match array_index k, array_index k' with
        | Some i, Some j =>
            if (i <? j)%N then (k, v) :: props
            else (k', v') :: define_property props' k v
        | Some _, None => (k, v) :: props
        | None, _ => (k', v') :: define_property props' k v
        end
  end.

(** A value, then the rest of the text; the fuel bounds the depth and the
    number of elements. *)
Fixpoint json_value (fuel : nat) (s : string) : option (Value * string) :=
  match fuel with
  | O => None
  | S fuel' =>
      match skip_ws s with
      | String c r =>
          if Ascii.eqb c quote then
            '(t, rest) ← string_chars r; Some (VPrimitive (PString t), rest)
          else if Ascii.eqb c "[" then
            match skip_ws r with
            | String "]" rest => Some (VArray [], rest)
            | _ => json_elements fuel' r []
            end
          else if Ascii.eqb c "{" then
            match skip_ws r with
            | String "}" rest => Some (VObject [], rest)
            | _ => json_members fuel' r []
            end
          else if String.prefix "true" (String c r) then
            Some (VPrimitive (PBoolean true), substring_from r 3)
          else if String.prefix "false" (String c r) then
            Some (VPrimitive (PBoolean false), substring_from r 4)
          else if String.prefix "null" (String c r) then
            Some (VPrimitive PNull, substring_from r 3)
          else
            '(x, rest) ← json_number (String c r); Some (VPrimitive (PNumber x), rest)
      | EmptyString => None
      end
  end
with json_elements (fuel : nat) (s : string) (acc : list Value) : option (Value * string) :=
  match fuel with
  | O => None
  | S fuel' =>
      '(v, r) ← json_value fuel' s;
      match skip_ws r with
      | String "," r' => json_elements fuel' r' (acc ++ [v])
      | String "]" r' => Some (VArray (acc ++ [v]), r')
      | _ => None
      end
  end
with json_members (fuel : nat) (s : string) (acc : list (string * Value))
  : option (Value * string) :=
  match fuel with
  | O => None
  | S fuel' =>
      match skip_ws s with
      | String c r =>
          if Ascii.eqb c quote then
            '(k, r) ← string_chars r;
            match skip_ws r with
            | String ":" r =>
                '(v, r) ← json_value fuel' r;
                match skip_ws r with
                | String "," r' => json_members fuel' r' (define_property acc k v)
                | String "}" r' => Some (VObject (define_property acc k v), r')
                | _ => None
                end
            | _ => None
            end
          else None
      | EmptyString => None
      end
  end.

(** JSON.parse: one value with white space around it. *)
Definition json_parse (text : string) : option Value :=
  '(v, r) ← json_value (2 * String.length text + 2) text;
  match skip_ws r with
  | EmptyString => Some v
  | _ => None
  end.

#[export] Instance platform : Platform :=
  {| Platform_Numerics := numerics;
     Date_parse := date_parse;
     ParsePattern := parse_pattern;
     EscapeRegExpPattern := escape_pattern;
     JSON_parse := json_parse;
     JSON_stringify := json_stringify |}.

(** ** Values for the examples *)

Definition zero : Value := VPrimitive (PNumber (StringToNumber "0")).

Definition minus_one : Value := VPrimitive (PNumber (StringToNumber "-1")).

(** The object with the one property a, of value 1. *)
Definition a_is_one : Value := VObject [("a", VPrimitive (PNumber (StringToNumber "1")))].

Definition quoted (s : string) : string := String quote (s +:+ String quote EmptyString).

End Reference.

(** * The vocabulary of the specification *)

(** The tags that [decode] knows. *)
Definition known_tags : list string :=
  ["__date__"; "__expr__"; "__numb__"; "__bool__"; "__strn__"; "__objt__"].

(** An encoded record: a tag of eight characters, the separator and the
    payload, which starts at offset 9. *)
Definition record (tag payload : string) : string := tag +:+ "|" +:+ payload.

(** A call that writes, for the histories of a slot. *)
Inductive call : Type :=
| call_set (key : string) (value : Value)
| call_remove (key : string).

Definition sets (key : string) (c : call) : Prop :=
  match c with
  | call_set k _ => k = key
  | call_remove _ => False
  end.

Section Vocabulary.

Context {host : Platform}.

(** A [set] that throws does so before it writes. *)
Definition perform (storage : gmap string string) (c : call) : gmap string string :=
  match c with
  | call_set key value =>
      match set storage key value with
      | Normal storage' => storage'
      | Throw _ => storage
      end
  | call_remove key => remove storage key
  end.

Definition run (storage : gmap string string) (calls : list call) : gmap string string :=
  fold_left perform calls storage.

(** The equality of each kind: the same instant for dates; for patterns,
    the pattern text of the second is the source text of the first,
    whatever the flags; the same value otherwise, which for arrays and
    objects is deep equality. *)
Definition value_equal (v v' : Value) : Prop :=
  match v, v' with
  | VDate tv, VDate tv' => tv = tv'
  | VRegExp src flags, VRegExp src' _ => src' = RegExp_source src flags
  | _, _ => v = v'
  end.

(** The truthy representatives of the supported kinds, in the words of the
    specification: a non-zero number, a non-empty string, true, a Date, a
    Pattern, a non-empty object. *)
Definition representative (v : Value) : Prop :=
  match v with
  | VPrimitive (PNumber _) => ToBoolean v = true
  | VPrimitive (PString s) => s ≠ ""
  | VPrimitive (PBoolean b) => b = true
  | VDate _ => True
  | VRegExp _ _ => True
  | VObject properties => properties ≠ []
  | _ => False
  end.

(** The round trip of one value, as the specification states it. *)
Definition value_survives (v : Value) : Prop :=
  ∀ (storage : gmap string string) (key : string) (D : Value),
    ∃ storage' v',
      set storage key v = Normal storage' ∧
      get storage' key D = Normal v' ∧
      value_equal v v'.

(** What the round trip of a value needs from the built-ins: that the
    conversion to text and back gives the value again.  For a date that is
    [Date.parse] on [toUTCString]; for a pattern, that its source text is
    a pattern when read without flags; for an array or an object,
    [JSON.parse] on [JSON.stringify]. *)
Definition reproduced (v : Value) : Prop :=
  match v with
  | VPrimitive (PNumber x) => StringToNumber (NumberToString x) = x
  | VPrimitive (PString _) => True
  | VPrimitive (PBoolean _) => True
  | VDate tv => Calendar.TimeClip (Date_parse (Calendar.toUTCString tv)) = tv
  | VRegExp src flags =>
      RegExp_source src flags ≠ "" ∧ ParsePattern (RegExp_source src flags) = true
  | VArray _ | VObject _ =>
      match JSON_stringify v with
      | Normal (Some json) => json ≠ "" ∧ JSON_parse json = Some v
      | _ => False
      end
  | _ => False
  end.

(** The failure that the specification allows to [get]: the slot holds a
    string with the tag __objt__ whose payload is not valid JSON. *)
Definition objt_payload_invalid (storage : gmap string string) (key : string) : Prop :=
  ∃ s, storage !! key = Some s ∧
       substring s 0 8 = "__objt__" ∧
       JSON_parse (substring_from s 9) = None.

End Vocabulary.

(** * The constructor, the exported instances and the hooks *)

(** The two Storage objects of the window. *)
Inductive WebStorage : Type :=
| window_sessionStorage
| window_localStorage.

(** What the two hold. *)
Record Window : Type := {
  session_content : gmap string string;
  local_content : gmap string string
}.

Definition content (w : Window) (o : WebStorage) : gmap string string :=
  match o with
  | window_sessionStorage => session_content w
  | window_localStorage => local_content w
  end.

Definition with_content (w : Window) (o : WebStorage) (c : gmap string string) : Window :=
  match o with
  | window_sessionStorage => {| session_content := c; local_content := local_content w |}
  | window_localStorage => {| session_content := session_content w; local_content := c |}
  end.

(** [constructor(storage_type = 'session')]: the default stands for an
    argument that is undefined; the instance is its private field
    [#storage], which is [window.sessionStorage] when
    [storage_type === 'session'] and [window.localStorage] otherwise. *)
Definition constructor (storage_type : Value) : WebStorage :=
  let storage_type :=
    match storage_type with
    | VPrimitive PUndefined => VPrimitive (PString "session")
    | _ => storage_type
    end in
  match storage_type with
  | VPrimitive p =>
      if IsStrictlyEqual p (PString "session") then window_sessionStorage
      else window_localStorage
  | _ => window_localStorage
  end.

(** [export const sessionStorage = new Storage('session')]. *)
Definition sessionStorage : WebStorage := constructor (PString "session").

(** [export const localStorage = new Storage('local')]. *)
Definition localStorage : WebStorage := constructor (PString "local").

(** What a hook returns: the proxy, the setter and the remover are
    closures over the key, the default value and the exported instance. *)
Record Hook : Type := {
  hook_storage : WebStorage;
  hook_key : string;
  hook_default_value : Value
}.

(** [useSessionStorage(key, default_value)]. *)
Definition useSessionStorage (key : string) (default_value : Value) : Hook :=
  {| hook_storage := sessionStorage; hook_key := key; hook_default_value := default_value |}.

(** [useLocalStorage(key, default_value)]. *)
Definition useLocalStorage (key : string) (default_value : Value) : Hook :=
  {| hook_storage := localStorage; hook_key := key; hook_default_value := default_value |}.

(** The trap [set(target, prop, value)] of the proxy: [return false].  It
    has no access to the storage. *)
Definition proxy_set (h : Hook) (prop : string) (value : Value) : bool := false.

Section Instances.

Context {host : Platform}.

(** The methods of an instance, on the window. *)
Definition Storage_has (this : WebStorage) (w : Window) (key : string) : bool :=
  has (content w this) key.

Definition Storage_remove (this : WebStorage) (w : Window) (key : string) : Window :=
  with_content w this (remove (content w this) key).

Definition Storage_get (this : WebStorage) (w : Window) (key : string)
  (default_value : Value) : completion Value :=
  get (content w this) key default_value.

Definition Storage_set (this : WebStorage) (w : Window) (key : string) (value : Value)
  : completion Window :=
  c ← set (content w this) key value; mret (with_content w this c).

(** The trap [get(target, prop)] of the proxy: the target and the property
    are not looked at. *)
Definition proxy_get (h : Hook) (w : Window) (prop : string) : completion Value :=
  Storage_get (hook_storage h) w (hook_key h) (hook_default_value h).

(** [const setter = new_value => sessionStorage.set( key, new_value )]. *)
Definition hook_setter (h : Hook) (w : Window) (new_value : Value) : completion Window :=
  Storage_set (hook_storage h) w (hook_key h) new_value.

(** [const remove = () => sessionStorage.remove( key )]. *)
Definition hook_remove (h : Hook) (w : Window) : Window :=
  Storage_remove (hook_storage h) w (hook_key h).

End Instances.

(** * Properties of the codec *)

(** ** Strings and records *)

Lemma length_append (a b : string) :
  String.length (a +:+ b) = (String.length a + String.length b)%nat.
Proof. induction a as [|c a IH]; simpl; [reflexivity | now rewrite IH]. Qed.

Lemma append_assoc (a b c : string) : (a +:+ b) +:+ c = a +:+ b +:+ c.
Proof.
  induction a as [|x a IH]; [reflexivity|].
  change (String x ((a +:+ b) +:+ c) = String x (a +:+ b +:+ c)). now rewrite IH.
Qed.

Lemma substring_whole (s : string) : String.substring 0 (String.length s) s = s.
Proof. induction s as [|c s IH]; simpl; [reflexivity | now rewrite IH]. Qed.

Lemma substring_skip (a b : string) (n : nat) :
  String.substring (String.length a) n (a +:+ b) = String.substring 0 n b.
Proof. induction a as [|c a IH]; simpl; [reflexivity | exact IH]. Qed.

Lemma substring_prefix (a b : string) (n : nat) :
  (n ≤ String.length a)%nat →
  String.substring 0 n (a +:+ b) = String.substring 0 n a.
Proof.
  revert n. induction a as [|c a IH]; intros n Hn; simpl in *.
  - assert (n = 0)%nat as -> by lia. now destruct b.
  - destruct n as [|n]; [reflexivity|]. rewrite IH by lia. reflexivity.
Qed.

Lemma substring_from_append (a b : string) :
  substring_from (a +:+ b) (String.length a) = b.
Proof.
  unfold substring_from, substring. rewrite length_append.
  rewrite Nat.min_id, (Nat.min_l (String.length a)) by lia.
  rewrite Nat.min_l, Nat.max_r by lia.
  replace (String.length a + String.length b - String.length a)%nat
    with (String.length b) by lia.
  rewrite substring_skip. apply substring_whole.
Qed.

Lemma substring_to_append (a b : string) (n : nat) :
  (n ≤ String.length a)%nat →
  substring (a +:+ b) 0 n = substring a 0 n.
Proof.
  intros Hn. unfold substring. rewrite length_append.
  rewrite !(Nat.min_l n) by lia. simpl. rewrite !Nat.sub_0_r.
  now apply substring_prefix.
Qed.

Lemma substring_past_end (s : string) (n : nat) :
  (String.length s ≤ n)%nat → String.substring n 0 s = "".
Proof.
  revert n. induction s as [|c s IH]; intros n Hn; simpl in *.
  - now destruct n.
  - destruct n as [|n]; [lia|]. apply IH. lia.
Qed.

Lemma substring_from_short (s : string) (n : nat) :
  (String.length s ≤ n)%nat → substring_from s n = "".
Proof.
  intros Hn. unfold substring_from, substring.
  rewrite Nat.min_id, (Nat.min_r n) by lia.
  rewrite Nat.min_id, Nat.max_id, Nat.sub_diag. now apply substring_past_end.
Qed.

Lemma payload_not_empty (s : string) :
  substring_from s 9 ≠ "" → (10 ≤ String.length s)%nat.
Proof.
  intros Hp. destruct (Nat.le_gt_cases (String.length s) 9) as [Hs|Hs]; [|lia].
  now apply substring_from_short in Hs.
Qed.

Lemma length_zero_empty (s : string) : String.length s = 0%nat ↔ s = "".
Proof. destruct s; simpl; split; intros; congruence. Qed.

Lemma record_length (tag payload : string) :
  String.length (record tag payload) = (String.length tag + 1 + String.length payload)%nat.
Proof. unfold record. rewrite !length_append. simpl. lia. Qed.

Lemma record_tag (tag payload : string) :
  String.length tag = 8%nat → substring (record tag payload) 0 8 = tag.
Proof.
  intros Htag. unfold record. rewrite substring_to_append by lia.
  unfold substring. rewrite Htag. simpl. rewrite <- Htag. apply substring_whole.
Qed.

Lemma record_payload (tag payload : string) :
  String.length tag = 8%nat → substring_from (record tag payload) 9 = payload.
Proof.
  intros Htag. unfold record. rewrite <- append_assoc.
  replace 9%nat with (String.length (tag +:+ "|")).
  - apply substring_from_append.
  - rewrite length_append, Htag. reflexivity.
Qed.

Lemma record_long (tag payload : string) :
  String.length tag = 8%nat → payload ≠ "" →
  (String.length (record tag payload) <? 10)%nat = false.
Proof.
  intros Htag Hp. rewrite record_length, Htag. apply Nat.ltb_ge.
  destruct payload; [congruence | simpl; lia].
Qed.

Lemma record_short (tag : string) :
  String.length tag = 8%nat → (String.length (record tag "") <? 10)%nat = true.
Proof. intros Htag. rewrite record_length, Htag. reflexivity. Qed.

(** ** Dates are written by the second *)

Module CalendarFacts.

Import Calendar.

Local Open Scope Z_scope.

Lemma Day_whole_seconds (t : Z) : Day (whole_seconds t) = Day t.
Proof.
  unfold Day, whole_seconds, msPerDay, msPerSecond.
  Z.div_mod_to_equations. lia.
Qed.

Lemma HourFromTime_whole_seconds (t : Z) :
  HourFromTime (whole_seconds t) = HourFromTime t.
Proof.
  unfold HourFromTime, whole_seconds, msPerHour, msPerSecond.
  f_equal. Z.div_mod_to_equations. lia.
Qed.

Lemma MinFromTime_whole_seconds (t : Z) :
  MinFromTime (whole_seconds t) = MinFromTime t.
Proof.
  unfold MinFromTime, whole_seconds, msPerMinute, msPerSecond.
  f_equal. Z.div_mod_to_equations. lia.
Qed.

Lemma SecFromTime_whole_seconds (t : Z) :
  SecFromTime (whole_seconds t) = SecFromTime t.
Proof.
  unfold SecFromTime, whole_seconds, msPerSecond.
  f_equal. Z.div_mod_to_equations. lia.
Qed.

Lemma year_at_or_below_whole_seconds (fuel : nat) (y t : Z) :
  year_at_or_below fuel y (whole_seconds t) = year_at_or_below fuel y t.
Proof.
  revert y. induction fuel as [|fuel IH]; intros y; simpl; [reflexivity|].
  rewrite IH.
  replace (TimeFromYear y <=? whole_seconds t) with (TimeFromYear y <=? t); [reflexivity|].
  unfold TimeFromYear, whole_seconds, msPerDay, msPerSecond.
  generalize (DayFromYear y). intros d.
  destruct (Z.leb_spec (86400000 * d) t), (Z.leb_spec (86400000 * d) (t - t mod 1000));
    try reflexivity; Z.div_mod_to_equations; lia.
Qed.

Lemma YearFromTime_whole_seconds (t : Z) :
  YearFromTime (whole_seconds t) = YearFromTime t.
Proof.
  unfold YearFromTime. now rewrite year_at_or_below_whole_seconds, Day_whole_seconds.
Qed.

Lemma toUTCString_whole_seconds (t : Z) :
  toUTCString (Some (whole_seconds t)) = toUTCString (Some t).
Proof.
  unfold toUTCString, TimeString, WeekDay, DateFromTime, MonthFromTime,
    DayWithinYear, InLeapYear.
  now rewrite YearFromTime_whole_seconds, Day_whole_seconds,
    HourFromTime_whole_seconds, MinFromTime_whole_seconds, SecFromTime_whole_seconds.
Qed.

End CalendarFacts.

Section Properties.

Context {host : Platform}.

(** ** What [decode] does on each kind of stored string *)

Lemma decode_short (s : string) :
  (String.length s < 10)%nat → decode (PString s) = Normal undefined.
Proof. intros Hs. unfold decode. apply Nat.ltb_lt in Hs. now rewrite Hs. Qed.

Lemma decode_date (payload : string) :
  payload ≠ "" → decode (PString (record "__date__" payload)) = Normal (new_Date payload).
Proof.
  intros Hp. unfold decode.
  rewrite record_long, record_tag, record_payload by (reflexivity || assumption).
  reflexivity.
Qed.

Lemma decode_expr (payload : string) :
  payload ≠ "" → decode (PString (record "__expr__" payload)) = new_RegExp payload.
Proof.
  intros Hp. unfold decode.
  rewrite record_long, record_tag, record_payload by (reflexivity || assumption).
  reflexivity.
Qed.

Lemma decode_numb (payload : string) :
  payload ≠ "" →
  decode (PString (record "__numb__" payload)) =
  Normal (VPrimitive (PNumber (StringToNumber payload))).
Proof.
  intros Hp. unfold decode.
  rewrite record_long, record_tag, record_payload by (reflexivity || assumption).
  reflexivity.
Qed.

Lemma decode_bool (payload : string) :
  payload ≠ "" →
  decode (PString (record "__bool__" payload)) =
  Normal (VPrimitive (PBoolean (String.eqb payload "1"))).
Proof.
  intros Hp. unfold decode.
  rewrite record_long, record_tag, record_payload by (reflexivity || assumption).
  reflexivity.
Qed.

Lemma decode_strn (payload : string) :
  payload ≠ "" →
  decode (PString (record "__strn__" payload)) = Normal (VPrimitive (PString payload)).
Proof.
  intros Hp. unfold decode.
  rewrite record_long, record_tag, record_payload by (reflexivity || assumption).
  reflexivity.
Qed.

Lemma decode_objt (payload : string) :
  payload ≠ "" → decode (PString (record "__objt__" payload)) = JSON_parse_call payload.
Proof.
  intros Hp. unfold decode.
  rewrite record_long, record_tag, record_payload by (reflexivity || assumption).
  reflexivity.
Qed.

Lemma decode_tagged (s : string) :
  (10 ≤ String.length s)%nat →
  decode (PString s) =
  let source := substring_from s 9 in
  let tag := substring s 0 8 in
  if String.eqb tag "__date__" then Normal (new_Date source)
  else if String.eqb tag "__expr__" then new_RegExp source
  else if String.eqb tag "__numb__" then Normal (VPrimitive (PNumber (StringToNumber source)))
  else if String.eqb tag "__bool__" then Normal (VPrimitive (PBoolean (String.eqb source "1")))
  else if String.eqb tag "__strn__" then Normal (VPrimitive (PString source))
  else if String.eqb tag "__objt__" then JSON_parse_call source
  else Normal (VPrimitive (PString s)).
Proof. intros Hs. unfold decode. apply Nat.ltb_ge in Hs. now rewrite Hs. Qed.

Lemma decode_empty_payload (tag : string) :
  String.length tag = 8%nat → decode (PString (record tag "")) = Normal undefined.
Proof. intros Htag. apply decode_short. rewrite record_length, Htag. simpl. lia. Qed.

Lemma decode_unknown_tag (s : string) :
  (10 ≤ String.length s)%nat → substring s 0 8 ∉ known_tags →
  decode (PString s) = Normal (VPrimitive (PString s)).
Proof.
  intros Hs Htag. unfold decode.
  apply Nat.ltb_ge in Hs. rewrite Hs.
  repeat match goal with
  | |- context [String.eqb (substring s 0 8) ?t] =>
      destruct (String.eqb_spec (substring s 0 8) t) as [He|_];
      [exfalso; apply Htag; rewrite He; unfold known_tags; set_solver|]
  end.
  reflexivity.
Qed.

(** ** Reading a slot *)

Lemma get_absent (storage : gmap string string) (key : string) (D : Value) :
  storage !! key = None → get storage key D = Normal D.
Proof. intros Hk. unfold get, getItem. rewrite Hk. reflexivity. Qed.

Lemma get_stored (storage : gmap string string) (key s : string) (D : Value) :
  storage !! key = Some s →
  get storage key D =
  (value ← decode (PString s); if ToBoolean value then Normal value else Normal D).
Proof. intros Hk. unfold get, getItem. rewrite Hk. reflexivity. Qed.

(** The value that [get] returns is truthy or is the default. *)
Lemma get_truthy_or_default (storage : gmap string string) (key : string) (D v : Value) :
  get storage key D = Normal v → ToBoolean v = true ∨ v = D.
Proof.
  unfold get. destruct (decode (getItem storage key)) as [w|e]; simpl; [|discriminate].
  destruct (ToBoolean w) eqn:Hw; intros [= <-]; auto.
Qed.

(** ** Writing a slot *)

Lemma set_encoded (storage : gmap string string) (key : string) (value : Value) (s : string) :
  encode value = Normal (PString s) → set storage key value = Normal (<[key := s]> storage).
Proof. intros He. unfold set. rewrite He. reflexivity. Qed.

Lemma get_after_insert (storage : gmap string string) (key s : string) (D : Value) :
  get (<[key := s]> storage) key D =
  (value ← decode (PString s); if ToBoolean value then Normal value else Normal D).
Proof. apply get_stored, lookup_insert_eq. Qed.

Lemma toUTCString_not_empty (tv : option Z) : Calendar.toUTCString tv ≠ "".
Proof.
  destruct tv as [t|]; [|discriminate].
  intros He. apply (f_equal String.length) in He.
  unfold Calendar.toUTCString in He. rewrite !length_append in He.
  simpl in He. lia.
Qed.

(** A date is stored by the second: two instants of the same second leave
    the same slot. *)
Lemma set_date_whole_seconds (storage : gmap string string) (key : string) (t : Z) :
  set storage key (VDate (Some t)) =
  set storage key (VDate (Some (Calendar.whole_seconds t))).
Proof.
  unfold set, encode. now rewrite CalendarFacts.toUTCString_whole_seconds.
Qed.

Lemma NumberToString_not_empty (x : number) :
  ToBoolean (PNumber x) = true → StringToNumber (NumberToString x) = x →
  NumberToString x ≠ "".
Proof.
  intros Ht Hx He. rewrite He in Hx. rewrite <- Hx in Ht. discriminate.
Qed.

(** ** C1: the existence law *)

Lemma has_true (storage : gmap string string) (key : string) :
  has storage key = true.
Proof. unfold has, getItem. destruct (storage !! key); reflexivity. Qed.

(** C1, at the failing input: [has(key)] after [remove(key)] answers true.
    [getItem] answers null for the missing slot, and null is not
    undefined.  The existence law asks for false. *)
Theorem has_after_remove (storage : gmap string string) (key : string) :
  remove storage key !! key = None ∧ has (remove storage key) key = true.
Proof. split; [apply lookup_delete_eq | apply has_true]. Qed.

Lemma has_after_set (storage storage' : gmap string string) (key : string) (v : Value) :
  set storage key v = Normal storage' → has storage' key = true.
Proof. intros _. apply has_true. Qed.

(** ** C2: the round trip *)

(** C2, amended: for a truthy value that the built-ins reproduce, [get]
    after [set] returns a value equal to it under the equality of its
    kind. *)
Theorem round_trip_law (storage : gmap string string) (key : string) (D v : Value) :
  ToBoolean v = true → reproduced v →
  ∃ storage' v',
    set storage key v = Normal storage' ∧
    get storage' key D = Normal v' ∧
    value_equal v v'.
Proof.
  intros Ht Hr.
  destruct v as [[| |b|x|z|s|d]|tv|src flags|text|elements|properties];
    try contradiction; try discriminate.
  - (* true *)
    destruct b; [|discriminate].
    eexists _, _. split; [apply set_encoded; reflexivity|].
    split; [rewrite get_after_insert; reflexivity | reflexivity].
  - (* a number *)
    simpl in Hr. pose proof (NumberToString_not_empty x Ht Hr) as Hne.
    eexists _, _. split; [apply set_encoded; reflexivity|].
    change ("__numb__|" +:+ NumberToString x) with (record "__numb__" (NumberToString x)).
    rewrite get_after_insert, decode_numb by assumption. simpl.
    rewrite Hr. simpl in Ht. setoid_rewrite Ht. split; reflexivity.
  - (* a string *)
    assert (s ≠ "") as Hne by (intros ->; discriminate).
    eexists _, _. split; [apply set_encoded; reflexivity|].
    change ("__strn__|" +:+ s) with (record "__strn__" s).
    rewrite get_after_insert, decode_strn by assumption. simpl.
    simpl in Ht. setoid_rewrite Ht. split; reflexivity.
  - (* a date *)
    simpl in Hr.
    eexists _, _. split; [apply set_encoded; reflexivity|].
    change ("__date__|" +:+ Calendar.toUTCString tv)
      with (record "__date__" (Calendar.toUTCString tv)).
    rewrite get_after_insert, decode_date by apply toUTCString_not_empty.
    unfold new_Date. rewrite Hr. split; reflexivity.
  - (* a pattern *)
    destruct Hr as [Hne Hp].
    eexists _, _. split; [apply set_encoded; reflexivity|].
    change ("__expr__|" +:+ RegExp_source src flags)
      with (record "__expr__" (RegExp_source src flags)).
    rewrite get_after_insert, decode_expr by assumption.
    unfold new_RegExp. rewrite Hp. split; reflexivity.
  - (* an array *)
    simpl in Hr. destruct (JSON_stringify (VArray elements)) as [[json|]|] eqn:Hj;
      try contradiction.
    destruct Hr as [Hne Hp].
    eexists _, _. split; [unfold set, encode; rewrite Hj; reflexivity|].
    change ("__objt__|" +:+ default "undefined" (Some json)) with (record "__objt__" json).
    rewrite get_after_insert, decode_objt by assumption.
    unfold JSON_parse_call. rewrite Hp. split; reflexivity.
  - (* an object *)
    simpl in Hr. destruct (JSON_stringify (VObject properties)) as [[json|]|] eqn:Hj;
      try contradiction.
    destruct Hr as [Hne Hp].
    eexists _, _. split; [unfold set, encode; rewrite Hj; reflexivity|].
    change ("__objt__|" +:+ default "undefined" (Some json)) with (record "__objt__" json).
    rewrite get_after_insert, decode_objt by assumption.
    unfold JSON_parse_call. rewrite Hp. split; reflexivity.
Qed.

(** On no platform do two instants of one second both survive: of a date
    with milliseconds and the same date without them, one at most reads
    back as it was written. *)
Lemma one_instant_per_second (t : Z) :
  (t mod Calendar.msPerSecond ≠ 0)%Z →
  ¬ (value_survives (VDate (Some t)) ∧
     value_survives (VDate (Some (Calendar.whole_seconds t)))).
Proof.
  intros Hms [Ht Hw].
  destruct (Ht ∅ "d" undefined) as (st & v & Hset & Hget & Hv).
  destruct (Hw ∅ "d" undefined) as (st' & v' & Hset' & Hget' & Hv').
  rewrite set_date_whole_seconds, Hset' in Hset. injection Hset as ->.
  rewrite Hget' in Hget. injection Hget as ->.
  destruct v as [| tv | | | |]; simpl in Hv, Hv'; try discriminate.
  subst tv. injection Hv' as Hv'. unfold Calendar.whole_seconds in Hv'. lia.
Qed.

(** ** C3: the masking law *)

(** C3: after [set(key, f)] with a falsy [f], [get(key, D)] returns [D];
    and whatever the slot holds, [get] returns no falsy value other than
    [D], so neither false, nor 0, nor the empty string when [D] is not
    that value. *)
Theorem masking_law (storage : gmap string string) (key : string) (D f : Value) :
  ToBoolean f = false →
  (∃ storage', set storage key f = Normal storage' ∧ get storage' key D = Normal D) ∧
  (∀ (held : gmap string string) (v : Value),
     get held key D = Normal v → ToBoolean v = false → v = D).
Proof.
  intros Hf. split.
  - destruct f as [[| |b|x|z|s|d]|tv|src flags|text|elements|properties];
      try discriminate.
    + (* undefined is written as the text undefined, 9 characters *)
      eexists. split; [reflexivity|]. rewrite get_after_insert. reflexivity.
    + (* null is written as the text null *)
      eexists. split; [reflexivity|]. rewrite get_after_insert. reflexivity.
    + (* false *)
      destruct b; [discriminate|].
      eexists. split; [reflexivity|]. rewrite get_after_insert. reflexivity.
    + (* +0, -0 and NaN *)
      destruct x as [sg|sg| |sg m e]; try discriminate.
      * eexists. split; [reflexivity|]. rewrite get_after_insert. reflexivity.
      * eexists. split; [reflexivity|]. rewrite get_after_insert. reflexivity.
    + (* 0n is written as the text 0 *)
      simpl in Hf. apply negb_false_iff, Z.eqb_eq in Hf. subst z.
      eexists. split; [reflexivity|]. rewrite get_after_insert. reflexivity.
    + (* the empty string *)
      simpl in Hf. apply negb_false_iff, Nat.eqb_eq, length_zero_empty in Hf. subst s.
      eexists. split; [reflexivity|]. rewrite get_after_insert. reflexivity.
  - intros held v Hget Hv. destruct (get_truthy_or_default _ _ _ _ Hget); congruence.
Qed.

(** ** C4: the failures of [get] *)

Lemma decode_throws (s : string) (e : exception) :
  decode (PString s) = Throw e ↔
  (10 ≤ String.length s)%nat ∧
  ((substring s 0 8 = "__objt__" ∧ JSON_parse (substring_from s 9) = None ∧
    e = JSONSyntaxError) ∨
   (substring s 0 8 = "__expr__" ∧ ParsePattern (substring_from s 9) = false ∧
    e = RegExpSyntaxError)).
Proof.
  unfold decode. destruct (Nat.ltb_spec (String.length s) 10) as [Hs|Hs].
  { split; [discriminate | intros [? _]; lia]. }
  destruct (String.eqb_spec (substring s 0 8) "__date__") as [Ht|_].
  { rewrite Ht. split; [discriminate | intros [_ [(? & _)|(? & _)]]; discriminate]. }
  destruct (String.eqb_spec (substring s 0 8) "__expr__") as [Ht|Hexpr].
  { rewrite Ht. unfold new_RegExp. destruct (ParsePattern _) eqn:Hp.
    - split; [discriminate | intros [_ [(? & _)|(_ & ? & _)]]; discriminate].
    - split.
      + intros [= <-]. split; [assumption | right; auto].
      + intros [_ [(? & _)|(_ & _ & ->)]]; [discriminate | reflexivity]. }
  destruct (String.eqb_spec (substring s 0 8) "__numb__") as [Ht|_].
  { rewrite Ht. split; [discriminate | intros [_ [(? & _)|(? & _)]]; discriminate]. }
  destruct (String.eqb_spec (substring s 0 8) "__bool__") as [Ht|_].
  { rewrite Ht. split; [discriminate | intros [_ [(? & _)|(? & _)]]; discriminate]. }
  destruct (String.eqb_spec (substring s 0 8) "__strn__") as [Ht|_].
  { rewrite Ht. split; [discriminate | intros [_ [(? & _)|(? & _)]]; discriminate]. }
  destruct (String.eqb_spec (substring s 0 8) "__objt__") as [Ht|Hobjt].
  { rewrite Ht. unfold JSON_parse_call. destruct (JSON_parse _) eqn:Hp.
    - split; [discriminate | intros [_ [(_ & ? & _)|(? & _)]]; discriminate].
    - split.
      + intros [= <-]. split; [assumption | left; auto].
      + intros [_ [(_ & _ & ->)|(? & _)]]; [reflexivity | discriminate]. }
  split; [discriminate | intros [_ [(? & _)|(? & _)]]; contradiction].
Qed.

Lemma get_throws (storage : gmap string string) (key : string) (D : Value) (e : exception) :
  get storage key D = Throw e ↔
  ∃ s, storage !! key = Some s ∧ decode (PString s) = Throw e.
Proof.
  unfold get, getItem. destruct (storage !! key) as [s|].
  - destruct (decode (PString s)) as [v|e'] eqn:Hd; unfold mbind, completion_bind.
    + split; [destruct (ToBoolean v); discriminate | intros (s' & [= <-] & He)].
      congruence.
    + split; [intros [= <-]; eauto | intros (s' & [= <-] & He); congruence].
  - split; [discriminate | intros (s' & ? & _); discriminate].
Qed.

(** C4, amended: [get] throws exactly when the slot holds a string of at
    least 10 characters whose tag is __objt__ and whose payload is not
    valid JSON, and then it is the failure of JSON.parse, or whose tag is
    __expr__ and whose payload is not a pattern, and then it is the failure
    of the RegExp constructor; in every other case [get] returns. *)
Theorem get_failures (storage : gmap string string) (key : string) (D : Value) :
  (get storage key D = Throw JSONSyntaxError ↔
   ∃ s, storage !! key = Some s ∧ (10 ≤ String.length s)%nat ∧
        substring s 0 8 = "__objt__" ∧ JSON_parse (substring_from s 9) = None) ∧
  (get storage key D = Throw RegExpSyntaxError ↔
   ∃ s, storage !! key = Some s ∧ (10 ≤ String.length s)%nat ∧
        substring s 0 8 = "__expr__" ∧ ParsePattern (substring_from s 9) = false) ∧
  (returns (get storage key D) ∨
   get storage key D = Throw JSONSyntaxError ∨
   get storage key D = Throw RegExpSyntaxError).
Proof.
  split; [|split].
  - rewrite get_throws. split.
    + intros (s & Hs & Hd). apply decode_throws in Hd as (Hl & [(Ht & Hp & _)|(_ & _ & ?)]);
        [eauto 6 | discriminate].
    + intros (s & Hs & Hl & Ht & Hp). exists s. split; [assumption|].
      apply decode_throws. split; [assumption | left; auto].
  - rewrite get_throws. split.
    + intros (s & Hs & Hd). apply decode_throws in Hd as (Hl & [(_ & _ & ?)|(Ht & Hp & _)]);
        [discriminate | eauto 6].
    + intros (s & Hs & Hl & Ht & Hp). exists s. split; [assumption|].
      apply decode_throws. split; [assumption | right; auto].
  - destruct (get storage key D) as [v|e] eqn:Hg; [left; eexists; reflexivity|].
    right. apply get_throws in Hg as (s & _ & Hd).
    apply decode_throws in Hd as (_ & [(_ & _ & ->)|(_ & _ & ->)]); auto.
Qed.

(** ** C5: short strings and unknown tags *)

(** C5: a stored string of fewer than 10 characters reads as the default;
    a stored string of at least 10 characters whose first 8 match no known
    tag reads as itself. *)
Theorem tag_robustness (storage : gmap string string) (key s : string) (D : Value) :
  storage !! key = Some s →
  ((String.length s < 10)%nat → get storage key D = Normal D) ∧
  ((10 ≤ String.length s)%nat → substring s 0 8 ∉ known_tags →
   get storage key D = Normal (VPrimitive (PString s))).
Proof.
  intros Hs. split.
  - intros Hl. rewrite (get_stored _ _ _ _ Hs), decode_short by assumption. reflexivity.
  - intros Hl Ht. rewrite (get_stored _ _ _ _ Hs), decode_unknown_tag by assumption.
    simpl. destruct s; [simpl in Hl; lia | reflexivity].
Qed.

(** ** C6: the absence law *)

Lemma perform_other (storage : gmap string string) (key : string) (c : call) :
  ¬ sets key c → storage !! key = None → perform storage c !! key = None.
Proof.
  intros Hc Hk. destruct c as [k v|k]; simpl in *.
  - unfold set. destruct (encode v) as [p|]; simpl; [|assumption].
    unfold setItem. destruct (ToString p) as [t|]; simpl; [|assumption].
    rewrite lookup_insert_ne; [assumption | congruence].
  - unfold remove, removeItem. destruct (decide (k = key)) as [->|Hne].
    + apply lookup_delete_eq.
    + rewrite lookup_delete_ne; assumption.
Qed.

Lemma run_other (calls : list call) (storage : gmap string string) (key : string) :
  Forall (fun c => ¬ sets key c) calls →
  storage !! key = None → run storage calls !! key = None.
Proof.
  unfold run. revert storage.
  induction calls as [|c calls IH]; intros storage Hcalls Hk; simpl; [assumption|].
  inversion Hcalls as [|? ? Hc Hrest]; subst.
  apply IH; [assumption|]. now apply perform_other.
Qed.

(** C6: [get(key, D)] returns [D] on a storage that starts empty and has
    seen no [set] on [key], whatever the calls on other keys, and after
    [remove(key)] whatever came before. *)
Theorem absence_law (calls : list call) (key : string) (D : Value) :
  (Forall (fun c => ¬ sets key c) calls → get (run ∅ calls) key D = Normal D) ∧
  get (remove (run ∅ calls) key) key D = Normal D.
Proof.
  split.
  - intros Hcalls. apply get_absent, run_other; [assumption | apply lookup_empty].
  - apply get_absent. apply lookup_delete_eq.
Qed.

Lemma get_after_remove (storage : gmap string string) (key : string) (D : Value) :
  get (remove storage key) key D = Normal D.
Proof. apply get_absent, lookup_delete_eq. Qed.

(** ** C7: the flags of a pattern *)

(** C7, amended: [set] of a pattern stores the tag and the source text,
    and nothing of the flags; a stored string of at least 10 characters
    with the tag __expr__ whose payload is a pattern reads as the pattern
    of that source and no flags; and so does what [set] stored for a
    pattern whose source text is a pattern without its flags. *)
Theorem pattern_flags_dropped (storage : gmap string string) (key : string) (D : Value) :
  (∀ src flags,
     set storage key (VRegExp src flags) =
     Normal (<[key := record "__expr__" (RegExp_source src flags)]> storage)) ∧
  (∀ s, storage !! key = Some s → (10 ≤ String.length s)%nat →
        substring s 0 8 = "__expr__" → ParsePattern (substring_from s 9) = true →
        get storage key D = Normal (VRegExp (substring_from s 9) "")) ∧
  (∀ src flags storage',
     RegExp_source src flags ≠ "" → ParsePattern (RegExp_source src flags) = true →
     set storage key (VRegExp src flags) = Normal storage' →
     get storage' key D = Normal (VRegExp (RegExp_source src flags) "")).
Proof.
  split; [|split].
  - intros src flags. apply set_encoded. reflexivity.
  - intros s Hs Hl Ht Hp.
    rewrite (get_stored _ _ _ _ Hs), decode_tagged by assumption.
    cbv zeta. rewrite Ht. cbn [String.eqb Ascii.eqb Bool.eqb].
    unfold new_RegExp. rewrite Hp. reflexivity.
  - intros src flags storage' Hne Hp Hset.
    rewrite (set_encoded _ _ _ (record "__expr__" (RegExp_source src flags))) in Hset
      by reflexivity.
    injection Hset as <-.
    rewrite get_after_insert, decode_expr by assumption.
    unfold new_RegExp. rewrite Hp. reflexivity.
Qed.

(** ** C8: nothing falsy but the default *)

(** C8: whatever the back end holds, a value that [get] returns is truthy
    or is the default. *)
Theorem get_never_falsy (storage : gmap string string) (key : string) (D v : Value) :
  get storage key D = Normal v → ToBoolean v = true ∨ v = D.
Proof. apply get_truthy_or_default. Qed.

(** ** C9: a date payload that does not parse *)

(** C9, amended: when the slot holds a string of at least 10 characters
    with the tag __date__ whose payload [Date.parse] does not accept, [get]
    returns the Invalid Date, which is truthy, whatever the default. *)
Theorem unparseable_date_not_masked
  (storage : gmap string string) (key s : string) (D : Value) :
  storage !! key = Some s → (10 ≤ String.length s)%nat →
  substring s 0 8 = "__date__" → Date_parse (substring_from s 9) = None →
  get storage key D = Normal (VDate None) ∧ ToBoolean (VDate None) = true.
Proof.
  intros Hs Hl Ht Hp. split; [|reflexivity].
  rewrite (get_stored _ _ _ _ Hs), decode_tagged by assumption.
  cbv zeta. rewrite Ht. cbn [String.eqb Ascii.eqb Bool.eqb].
  unfold new_Date. rewrite Hp. reflexivity.
Qed.

(** ** C10: a number payload that does not parse *)

(** C10: when the slot holds a string with the tag __numb__ whose payload
    is not a StringNumericLiteral, [decode] yields NaN, NaN is falsy, and
    [get] returns the default. *)
Theorem unparseable_number_masked
  (storage : gmap string string) (key s : string) (D : Value) :
  storage !! key = Some s → substring s 0 8 = "__numb__" →
  Literal.StringNumericLiteral (substring_from s 9) = None →
  decode (PString s) = Normal (VPrimitive (PNumber S754_nan)) ∧
  ToBoolean (PNumber S754_nan) = false ∧
  get storage key D = Normal D.
Proof.
  intros Hs Ht Hp.
  assert (10 ≤ String.length s)%nat as Hl.
  { apply payload_not_empty. intros He. rewrite He in Hp. discriminate. }
  assert (decode (PString s) = Normal (VPrimitive (PNumber S754_nan))) as Hd.
  { rewrite decode_tagged by assumption.
    cbv zeta. rewrite Ht. cbn [String.eqb Ascii.eqb Bool.eqb].
    unfold StringToNumber. rewrite Hp. reflexivity. }
  split; [assumption|]. split; [reflexivity|].
  rewrite (get_stored _ _ _ _ Hs), Hd. reflexivity.
Qed.

End Properties.

(** * More on the codec *)

Lemma decimal_of_Z_first (z : Z) :
  ∃ c rest, decimal_of_Z z = String c rest ∧ c ≠ "_"%char.
Proof.
  unfold decimal_of_Z, NilZero.string_of_int.
  assert (∀ d, ∃ c rest, NilZero.string_of_uint d = String c rest ∧ c ≠ "_"%char) as Hu.
  { intros d. destruct d; simpl; eexists _, _; (split; [reflexivity | discriminate]). }
  destruct (Z.to_int z) as [d|d]; [apply Hu|].
  eexists _, _. split; [reflexivity | discriminate].
Qed.

Lemma substring_first (c : ascii) (rest : string) :
  (8 ≤ String.length (String c rest))%nat →
  ∃ t, substring (String c rest) 0 8 = String c t.
Proof.
  intros Hl. unfold substring. rewrite (Nat.min_l 8) by exact Hl.
  simpl. eauto.
Qed.

Lemma known_tags_first (tag : string) :
  tag ∈ known_tags → ∃ t, tag = String "_" t.
Proof.
  unfold known_tags. rewrite !elem_of_cons, elem_of_nil.
  intros [->|[->|[->|[->|[->|[->|[]]]]]]]; eauto.
Qed.

Lemma known_tags_length (tag : string) :
  tag ∈ known_tags → String.length tag = 8%nat.
Proof.
  unfold known_tags. rewrite !elem_of_cons, elem_of_nil.
  intros [->|[->|[->|[->|[->|[->|[]]]]]]]; reflexivity.
Qed.

Lemma separator_tag (tag payload : string) (c : ascii) :
  String.length tag = 8%nat → substring (tag +:+ String c payload) 0 8 = tag.
Proof.
  intros Htag. rewrite substring_to_append by lia.
  unfold substring. rewrite Htag. simpl. rewrite <- Htag. apply substring_whole.
Qed.

Lemma separator_payload (tag payload : string) (c : ascii) :
  String.length tag = 8%nat → substring_from (tag +:+ String c payload) 9 = payload.
Proof.
  intros Htag.
  change (String c payload) with (String c "" +:+ payload). rewrite <- append_assoc.
  replace 9%nat with (String.length (tag +:+ String c "")).
  - apply substring_from_append.
  - rewrite length_append, Htag. reflexivity.
Qed.

Lemma whole_seconds_quotient (t : Z) :
  Calendar.whole_seconds t = (1000 * (t / 1000))%Z.
Proof.
  unfold Calendar.whole_seconds, Calendar.msPerSecond. Z.div_mod_to_equations. lia.
Qed.

Lemma content_with_content (w : Window) (o : WebStorage) (c : gmap string string) :
  content (with_content w o c) o = c.
Proof. now destruct o. Qed.

Lemma content_with_content_other (w : Window) (o o' : WebStorage) (c : gmap string string) :
  o ≠ o' → content (with_content w o c) o' = content w o'.
Proof. now destruct o, o'. Qed.

Lemma exported_instances_differ : sessionStorage ≠ localStorage.
Proof. discriminate. Qed.

Ltac in_known_tags :=
  unfold known_tags; rewrite !elem_of_cons; tauto.

Section More.

Context {host : Platform}.

Lemma get_same_slot (storage storage' : gmap string string) (key : string) (D : Value) :
  storage' !! key = storage !! key → get storage' key D = get storage key D.
Proof. intros Hk. unfold get, getItem. now rewrite Hk. Qed.

Lemma set_inserts (storage storage' : gmap string string) (key : string) (v : Value) :
  set storage key v = Normal storage' →
  ∃ p s, encode v = Normal p ∧ ToString p = Normal s ∧ storage' = <[key := s]> storage.
Proof.
  unfold set, setItem. destruct (encode v) as [p|]; [|discriminate].
  unfold mbind, completion_bind.
  destruct (ToString p) as [s|] eqn:Hs; [|discriminate].
  intros [= <-]. exists p, s. auto.
Qed.

(** ** Other keys *)

(** X1: a [set] or a [remove] on one key leaves what [get] returns for
    every other key as it was. *)
Theorem writes_keep_other_keys
  (storage : gmap string string) (key key' : string) (D : Value) :
  key ≠ key' →
  (∀ v storage', set storage key v = Normal storage' →
                 get storage' key' D = get storage key' D) ∧
  get (remove storage key) key' D = get storage key' D.
Proof.
  intros Hne. split.
  - intros v storage' Hset. apply set_inserts in Hset as (p & s & _ & _ & ->).
    apply get_same_slot. now apply lookup_insert_ne.
  - apply get_same_slot. unfold remove, removeItem. now apply lookup_delete_ne.
Qed.

(** ** Writing twice, writing and removing *)

(** X2: the last [set] on a key wins: after a first [set], a second one
    leaves the storage, or throws, as it would have without the first. *)
Theorem last_write_wins
  (storage storage1 : gmap string string) (key : string) (v1 v2 : Value) :
  set storage key v1 = Normal storage1 →
  set storage1 key v2 = set storage key v2.
Proof.
  intros Hset. apply set_inserts in Hset as (p & s & _ & _ & ->).
  unfold set, setItem. destruct (encode v2) as [p2|]; [|reflexivity].
  unfold mbind, completion_bind. destruct (ToString p2) as [s2|]; [|reflexivity].
  unfold mret, completion_ret. now rewrite insert_insert_eq.
Qed.

(** X3: [remove] after [set] on the same key leaves the storage as
    [remove] alone, and gives back the storage of before when the key had
    no slot. *)
Theorem remove_undoes_set
  (storage storage' : gmap string string) (key : string) (v : Value) :
  set storage key v = Normal storage' →
  remove storage' key = remove storage key ∧
  (storage !! key = None → remove storage' key = storage).
Proof.
  intros Hset. apply set_inserts in Hset as (p & s & _ & _ & ->).
  unfold remove, removeItem. rewrite delete_insert_eq. split; [reflexivity|].
  apply delete_id.
Qed.

(** ** The failures of [set] *)


(** ** What [set] writes *)

(** X5: what a [set] that returns has written under the key is a record
    of one of the six tags, the separator and a payload, unless the value
    is undefined, null or a BigInt, which are written as their plain text
    with no tag. *)
Theorem set_writes_a_tag
  (storage storage' : gmap string string) (key : string) (v : Value) :
  set storage key v = Normal storage' →
  (∃ tag payload, tag ∈ known_tags ∧ storage' !! key = Some (record tag payload)) ∨
  (v = undefined ∧ storage' !! key = Some "undefined") ∨
  (v = VPrimitive PNull ∧ storage' !! key = Some "null") ∨
  (∃ z, v = VPrimitive (PBigInt z) ∧ storage' !! key = Some (decimal_of_Z z)).
Proof.
  intros Hset. apply set_inserts in Hset as (p & s & He & Hs & ->).
  rewrite lookup_insert_eq.
  assert (∀ tag payload, tag ∈ known_tags → s = record tag payload →
          ∃ tag payload, tag ∈ known_tags ∧ Some s = Some (record tag payload)) as Htag.
  { intros tag payload Hin ->. eauto. }
  unfold encode in He.
  destruct v as [[| |b|x|z|t|d]|tv|src flags|text|elements|properties];
    try (injection He as <-); try (injection Hs as <-).
  - right. left. auto.
  - right. right. left. auto.
  - left. apply (Htag "__bool__" (if b then "1" else "0")); [in_known_tags | reflexivity].
  - left. apply (Htag "__numb__" (NumberToString x)); [in_known_tags | reflexivity].
  - right. right. right. eauto.
  - left. apply (Htag "__strn__" t); [in_known_tags | reflexivity].
  - discriminate Hs.
  - left. apply (Htag "__date__" (Calendar.toUTCString tv)); [in_known_tags | reflexivity].
  - left. apply (Htag "__expr__" (RegExp_source src flags)); [in_known_tags | reflexivity].
  - left. apply (Htag "__strn__" text); [in_known_tags | reflexivity].
  - destruct (JSON_stringify (VArray elements)) as [json|]; [|discriminate].
    injection He as <-. injection Hs as <-.
    left. apply (Htag "__objt__" (default "undefined" json)); [in_known_tags | reflexivity].
  - destruct (JSON_stringify (VObject properties)) as [json|]; [|discriminate].
    injection He as <-. injection Hs as <-.
    left. apply (Htag "__objt__" (default "undefined" json)); [in_known_tags | reflexivity].
Qed.

(** ** Functions and BigInts *)

(** X6: a function is written as the string of its text: the slot is the
    one that [set] of that string leaves, and [get] returns the text, a
    string. *)
Theorem function_degrades_to_text
  (storage : gmap string string) (key text : string) (D : Value) :
  text ≠ "" →
  set storage key (VFunction text) = set storage key (VPrimitive (PString text)) ∧
  ∃ storage', set storage key (VFunction text) = Normal storage' ∧
              get storage' key D = Normal (VPrimitive (PString text)).
Proof.
  intros Hne. split; [reflexivity|].
  eexists. split; [apply set_encoded; reflexivity|].
  change ("__strn__|" +:+ text) with (record "__strn__" text).
  rewrite get_after_insert, decode_strn by assumption.
  unfold mbind, completion_bind.
  destruct text; [congruence | reflexivity].
Qed.

(** X7: a BigInt is written as its decimal text with no tag; [get] returns
    the default when the text has fewer than 10 characters and the text
    itself, a string, when it has 10 or more. *)
Theorem bigint_read_back (storage : gmap string string) (key : string) (z : Z) (D : Value) :
  set storage key (VPrimitive (PBigInt z)) = Normal (<[key := decimal_of_Z z]> storage) ∧
  ((String.length (decimal_of_Z z) < 10)%nat →
   get (<[key := decimal_of_Z z]> storage) key D = Normal D) ∧
  ((10 ≤ String.length (decimal_of_Z z))%nat →
   get (<[key := decimal_of_Z z]> storage) key D =
   Normal (VPrimitive (PString (decimal_of_Z z)))).
Proof.
  split; [reflexivity|]. split; intros Hl; rewrite get_after_insert.
  - rewrite decode_short by assumption. reflexivity.
  - rewrite decode_unknown_tag; [|assumption|].
    + unfold mbind, completion_bind.
      destruct (decimal_of_Z z); [simpl in Hl; lia | reflexivity].
    + destruct (decimal_of_Z_first z) as (c & rest & Hz & Hc). rewrite Hz in Hl |- *.
      destruct (substring_first c rest) as (t & ->); [simpl in *; lia|].
      intros Hin. apply known_tags_first in Hin as (t' & [= -> _]). congruence.
Qed.

(** ** The separator and the boolean payload *)

(** X8: [decode] does not look at the character between the tag and the
    payload: a stored string with a known tag reads the same whatever its
    ninth character. *)
Theorem separator_not_checked
  (storage : gmap string string) (key tag payload : string) (c : ascii) (D : Value) :
  tag ∈ known_tags →
  storage !! key = Some (tag +:+ String c payload) →
  get storage key D = get (<[key := record tag payload]> storage) key D.
Proof.
  intros Hin Hs. rewrite (get_stored _ _ _ _ Hs), get_after_insert. f_equal.
  pose proof (known_tags_length tag Hin) as Htag.
  destruct payload as [|c' payload'].
  - rewrite !decode_short; [reflexivity | |].
    + rewrite record_length, Htag. simpl. lia.
    + rewrite length_append, Htag. simpl. lia.
  - rewrite !decode_tagged.
    + cbv zeta. rewrite separator_tag, separator_payload, record_tag, record_payload
        by assumption.
      apply known_tags_first in Hin as Hfirst. clear Hs.
      unfold known_tags in Hin. rewrite !elem_of_cons, elem_of_nil in Hin.
      destruct Hin as [->|[->|[->|[->|[->|[->|[]]]]]]]; reflexivity.
    + rewrite record_length, Htag. simpl. lia.
    + rewrite length_append, Htag. simpl. lia.
Qed.

(** X9: a stored string of at least 10 characters with the tag __bool__
    reads as true when its payload is exactly the text 1, and as the
    default for every other payload. *)
Theorem bool_payload_read
  (storage : gmap string string) (key s : string) (D : Value) :
  storage !! key = Some s → (10 ≤ String.length s)%nat →
  substring s 0 8 = "__bool__" →
  get storage key D =
  Normal (if String.eqb (substring_from s 9) "1" then VPrimitive (PBoolean true) else D).
Proof.
  intros Hs Hl Ht. rewrite (get_stored _ _ _ _ Hs), decode_tagged by assumption.
  cbv zeta. rewrite Ht. cbn [String.eqb Ascii.eqb Bool.eqb].
  unfold mbind, completion_bind.
  destruct (String.eqb (substring_from s 9) "1"); reflexivity.
Qed.

(** ** Dates *)

(** X10: two dates of the same second leave the same slot. *)
Theorem same_second_same_slot
  (storage : gmap string string) (key : string) (t1 t2 : Z) :
  (t1 / 1000 = t2 / 1000)%Z →
  set storage key (VDate (Some t1)) = set storage key (VDate (Some t2)).
Proof.
  intros Hq. rewrite (set_date_whole_seconds _ _ t1), (set_date_whole_seconds _ _ t2).
  now rewrite !whole_seconds_quotient, Hq.
Qed.

(** X11: what [set] wrote for a date, valid or not, reads as a date: the
    one that [new Date] makes of its UTC string; [get] returns neither the
    default nor a failure. *)
Theorem stored_date_reads_as_date
  (storage : gmap string string) (key : string) (tv : option Z) (D : Value) :
  ∃ storage',
    set storage key (VDate tv) = Normal storage' ∧
    get storage' key D =
    Normal (VDate (Calendar.TimeClip (Date_parse (Calendar.toUTCString tv)))).
Proof.
  eexists. split; [apply set_encoded; reflexivity|].
  change ("__date__|" +:+ Calendar.toUTCString tv)
    with (record "__date__" (Calendar.toUTCString tv)).
  rewrite get_after_insert, decode_date by apply toUTCString_not_empty.
  reflexivity.
Qed.

(** ** Reading back one's own write *)

Lemma read_back_throw_kinds
  (storage storage' : gmap string string) (key : string) (v D : Value) (e : exception) :
  set storage key v = Normal storage' →
  get storage' key D = Throw e →
  (∃ src flags, v = VRegExp src flags) ∨ (∃ l, v = VArray l) ∨ (∃ l, v = VObject l).
Proof.
  intros Hset Hget.
  apply get_throws in Hget as (s & Hs & Hd).
  apply decode_throws in Hd as (Hl & Htag).
  assert (substring s 0 8 = "__objt__" ∨ substring s 0 8 = "__expr__") as Ht
    by (destruct Htag as [(? & _)|(? & _)]; auto).
  clear Htag.
  apply set_inserts in Hset as (p & t & He & Hp & ->).
  rewrite lookup_insert_eq in Hs. injection Hs as ->.
  assert (∀ tag payload, String.length tag = 8%nat → s = record tag payload →
          tag = "__objt__" ∨ tag = "__expr__") as Hrecord.
  { intros tag payload Hlen ->. now rewrite record_tag in Ht. }
  unfold encode in He.
  destruct v as [[| |b|x|z|u|d]|tv|src flags|text|elements|properties];
    try (injection He as <-); try (injection Hp as <-); eauto 6.
  - simpl in Hl. lia.
  - simpl in Hl. lia.
  - destruct (Hrecord "__bool__" (if b then "1" else "0") eq_refl eq_refl); discriminate.
  - destruct (Hrecord "__numb__" (NumberToString x) eq_refl eq_refl); discriminate.
  - destruct (decimal_of_Z_first z) as (c & rest & Hz & Hc). rewrite Hz in Ht, Hl.
    destruct (substring_first c rest) as (t' & Hsub); [simpl in *; lia|].
    rewrite Hsub in Ht. destruct Ht as [[= -> _]|[= -> _]]; congruence.
  - destruct (Hrecord "__strn__" u eq_refl eq_refl); discriminate.
  - discriminate Hp.
  - destruct (Hrecord "__date__" (Calendar.toUTCString tv) eq_refl eq_refl); discriminate.
  - destruct (Hrecord "__strn__" text eq_refl eq_refl); discriminate.
Qed.

(** X12: [get] on a slot that [set] has just written returns, and does
    not throw, unless the value written was a pattern, an array or an
    object. *)
Theorem plain_values_read_back
  (storage storage' : gmap string string) (key : string) (v D : Value) :
  set storage key v = Normal storage' →
  (∀ src flags, v ≠ VRegExp src flags) → (∀ l, v ≠ VArray l) → (∀ l, v ≠ VObject l) →
  returns (get storage' key D).
Proof.
  intros Hset Hr Ha Ho.
  destruct (get storage' key D) as [v'|e] eqn:Hget; [eexists; reflexivity|].
  destruct (read_back_throw_kinds _ _ _ _ _ _ Hset Hget) as [(? & ? & ?)|[(? & ?)|(? & ?)]];
    [now apply Hr in H | now apply Ha in H | now apply Ho in H].
Qed.

(** ** Instances and hooks *)

Lemma constructor_local (storage_type : Value) :
  storage_type ≠ undefined → storage_type ≠ VPrimitive (PString "session") →
  constructor storage_type = window_localStorage.
Proof.
  intros Hu Hs. unfold constructor.
  destruct storage_type as [[| |b|x|z|s|d]| | | | |]; try reflexivity.
  - now contradiction Hu.
  - simpl. destruct (String.eqb_spec s "session") as [->|_]; [now contradiction Hs | reflexivity].
Qed.

(** X13: an instance made with a storage type that is neither undefined
    nor the string session works on [window.localStorage]: what it writes
    is what the exported [localStorage] reads, and the exported
    [sessionStorage] reads what it read before. *)
Theorem other_storage_types_are_local
  (storage_type : Value) (w w' : Window) (key key' : string) (v D : Value) :
  storage_type ≠ undefined → storage_type ≠ VPrimitive (PString "session") →
  Storage_set (constructor storage_type) w key v = Normal w' →
  Storage_get localStorage w' key' D = Storage_get (constructor storage_type) w' key' D ∧
  Storage_get sessionStorage w' key' D = Storage_get sessionStorage w key' D.
Proof.
  intros Hu Hs. rewrite (constructor_local _ Hu Hs). intros Hset.
  split; [reflexivity|].
  unfold Storage_set in Hset.
  destruct (set (content w window_localStorage) key v) as [c|]; [|discriminate].
  injection Hset as <-. reflexivity.
Qed.

(** X14: two hooks on the same store and key share the slot, whatever
    their defaults: after the remover of one, every property of the proxy
    of the other reads as the default of that other; after the setter of
    one with a non-empty string, every property of the proxy of the other
    reads as that string. *)
Theorem hooks_share_the_slot (h1 h2 : Hook) (w : Window) (prop : string) :
  hook_storage h1 = hook_storage h2 → hook_key h1 = hook_key h2 →
  proxy_get h2 (hook_remove h1 w) prop = Normal (hook_default_value h2) ∧
  (∀ s, s ≠ "" →
        ∃ w', hook_setter h1 w (VPrimitive (PString s)) = Normal w' ∧
              proxy_get h2 w' prop = Normal (VPrimitive (PString s))).
Proof.
  intros Hst Hk. split.
  - unfold proxy_get, hook_remove, Storage_get, Storage_remove.
    rewrite <- Hst, <- Hk, content_with_content. apply get_after_remove.
  - intros s Hne. unfold proxy_get, hook_setter, Storage_get, Storage_set.
    rewrite (set_encoded _ _ _ (record "__strn__" s)) by reflexivity.
    eexists. split; [reflexivity|].
    rewrite <- Hst, <- Hk, content_with_content.
    rewrite get_after_insert, decode_strn by assumption.
    unfold mbind, completion_bind. destruct s; [congruence | reflexivity].
Qed.

(** X15: the hooks of the two stores do not meet: neither the setter nor
    the remover of a [useSessionStorage] hook changes what a property of a
    [useLocalStorage] proxy reads, also under the same key, and the other
    way round. *)
Theorem hooks_of_two_stores
  (key key' : string) (D D' : Value) (w : Window) (prop : string) :
  let session := useSessionStorage key D in
  let local := useLocalStorage key' D' in
  (∀ v w', hook_setter session w v = Normal w' → proxy_get local w' prop = proxy_get local w prop) ∧
  proxy_get local (hook_remove session w) prop = proxy_get local w prop ∧
  (∀ v w', hook_setter local w v = Normal w' → proxy_get session w' prop = proxy_get session w prop) ∧
  proxy_get session (hook_remove local w) prop = proxy_get session w prop.
Proof.
  cbv zeta. unfold proxy_get, hook_setter, hook_remove, Storage_get, Storage_set,
    Storage_remove. simpl.
  repeat split.
  - intros v w' Hset. destruct (set (session_content w) key v); [|discriminate].
    injection Hset as <-. reflexivity.
  - intros v w' Hset. destruct (set (local_content w) key' v); [|discriminate].
    injection Hset as <-. reflexivity.
Qed.

End More.

(** * The codec on the reference platform *)

#[local] Existing Instance Reference.platform.

(** ** The scenarios of the specification *)

Example scenario_masking :
  (storage ← set (host := Reference.platform) ∅ "n" Reference.zero;
   get storage "n" Reference.minus_one) = Normal Reference.minus_one.
Proof. vm_compute. reflexivity. Qed.

Example scenario_string :
  (storage ← set (host := Reference.platform) ∅ "s" (PString "hello");
   get storage "s" undefined) = Normal (VPrimitive (PString "hello")).
Proof. vm_compute. reflexivity. Qed.

Example scenario_epoch :
  (storage ← set (host := Reference.platform) ∅ "d" (VDate (Some 0%Z));
   get storage "d" undefined) = Normal (VDate (Some 0%Z)).
Proof. vm_compute. reflexivity. Qed.

Example scenario_object :
  (storage ← set (host := Reference.platform) ∅ "o" Reference.a_is_one;
   get storage "o" undefined) = Normal Reference.a_is_one.
Proof. vm_compute. reflexivity. Qed.

(** The stored text of the object, cut after the colon, is not JSON. *)
Example scenario_corrupted :
  set (host := Reference.platform) ∅ "o" Reference.a_is_one =
    Normal {["o" := "__objt__|{" +:+ Reference.quoted "a" +:+ ":1}"]} ∧
  get (host := Reference.platform)
    {["o" := "__objt__|{" +:+ Reference.quoted "a" +:+ ":"]} "o" undefined =
    Throw JSONSyntaxError.
Proof. split; vm_compute; reflexivity. Qed.

(** A property that is NaN comes back as null, and a date inside an object
    comes back as the text of its toJSON. *)
Example object_not_reproduced :
  (storage ← set (host := Reference.platform) ∅ "o"
                 (VObject [("a", VPrimitive (PNumber S754_nan)); ("d", VDate (Some 0%Z))]);
   get storage "o" undefined) =
  Normal (VObject [("a", VPrimitive PNull);
                   ("d", VPrimitive (PString "1970-01-01T00:00:00.000Z"))]).
Proof. vm_compute. reflexivity. Qed.

(** A function comes back as its text. *)
Example function_read_as_text :
  (storage ← set (host := Reference.platform) ∅ "f" (VFunction "() => 1");
   get storage "f" undefined) = Normal (VPrimitive (PString "() => 1")).
Proof. vm_compute. reflexivity. Qed.

(** [set] of a symbol throws in [setItem] and writes nothing. *)
Example symbol_not_stored :
  set (host := Reference.platform) ∅ "y" (PSymbol "tag") = Throw SymbolTypeError.
Proof. reflexivity. Qed.

Example scenario_remove_then_has :
  has (remove {["s" := "__strn__|hello"]} "s") "s" = true.
Proof. vm_compute. reflexivity. Qed.

(** ** C2 *)

(** C2, counterexample: a Date with 500 milliseconds is a truthy
    representative, and its round trip gives another instant:
    [toUTCString] writes whole seconds. *)
Lemma date_milliseconds_lost :
  representative (VDate (Some 1500%Z)) ∧
  ¬ value_survives (host := Reference.platform) (VDate (Some 1500%Z)).
Proof.
  split; [exact I|]. intros Hrt.
  destruct (Hrt ∅ "d" undefined) as (storage' & v' & Hset & Hget & Heq).
  vm_compute in Hset. injection Hset as <-.
  vm_compute in Hget. injection Hget as <-.
  discriminate Heq.
Qed.

(** The round trips of a date, a number, a string, true, a pattern and an
    object. *)
Lemma round_trip_law_witness :
  Forall
    (fun v =>
       ∃ storage' v',
         set (host := Reference.platform) ∅ "k" v = Normal storage' ∧
         get storage' "k" undefined = Normal v' ∧
         value_equal v v')
    [VDate (Some 0%Z); Reference.minus_one; VPrimitive (PString "hello");
     VPrimitive (PBoolean true); VRegExp "ab+c" "gi"; Reference.a_is_one].
Proof.
  repeat constructor;
    apply (round_trip_law (host := Reference.platform));
    solve [reflexivity | vm_compute; repeat split; (reflexivity || discriminate)].
Defined.

(** ** C3 *)

(** The number 0 written under n reads as the default -1. *)
Lemma masking_law_witness :
  (∃ storage',
     set (host := Reference.platform) ∅ "n" Reference.zero = Normal storage' ∧
     get storage' "n" Reference.minus_one = Normal Reference.minus_one) ∧
  (∀ (held : gmap string string) (v : Value),
     get (host := Reference.platform) held "n" Reference.minus_one = Normal v →
     ToBoolean v = false → v = Reference.minus_one).
Proof.
  apply (masking_law (host := Reference.platform)). reflexivity.
Defined.

(** ** C4 *)

(** C4, counterexample: the slot holds a string whose tag is __expr__ and
    whose payload, an opening parenthesis, is not a pattern; [get] throws,
    and the tag is not __objt__. *)
Lemma invalid_pattern_throws :
  ¬ (throws (get (host := Reference.platform) {["k" := "__expr__|("]} "k" undefined) ↔
     objt_payload_invalid (host := Reference.platform) {["k" := "__expr__|("]} "k").
Proof.
  intros [Hthrows _].
  destruct Hthrows as (s & Hs & Ht & _).
  - exists RegExpSyntaxError. vm_compute. reflexivity.
  - rewrite lookup_singleton_eq in Hs. injection Hs as <-.
    vm_compute in Ht. discriminate Ht.
Qed.

(** ** C5 *)

(** A string of 9 characters reads as the default; a string of 12
    characters that starts with no tag reads as itself. *)
Lemma tag_robustness_witness :
  get (host := Reference.platform) {["k" := "__date__|"]} "k" (PString "D") =
    Normal (VPrimitive (PString "D")) ∧
  get (host := Reference.platform) {["k" := "hello, world"]} "k" (PString "D") =
    Normal (VPrimitive (PString "hello, world")).
Proof.
  split.
  - apply (proj1 (tag_robustness (host := Reference.platform)
                    {["k" := "__date__|"]} "k" "__date__|" (PString "D")
                    (lookup_singleton_eq _ _))).
    vm_compute. lia.
  - apply (proj2 (tag_robustness (host := Reference.platform)
                    {["k" := "hello, world"]} "k" "hello, world" (PString "D")
                    (lookup_singleton_eq _ _))).
    + vm_compute. lia.
    + change (substring "hello, world" 0 8) with "hello, w". unfold known_tags.
      rewrite !not_elem_of_cons. repeat split; try discriminate. apply not_elem_of_nil.
Defined.

(** ** C6 *)

(** After a [set] on another key and a [remove], and after a [set] on the
    key and a [remove] of it. *)
Lemma absence_law_witness :
  get (host := Reference.platform)
    (run ∅ [call_set "other" (PString "x"); call_remove "k"]) "k" (PString "D") =
    Normal (VPrimitive (PString "D")) ∧
  get (host := Reference.platform)
    (remove (run ∅ [call_set "k" (PString "x")]) "k") "k" (PString "D") =
    Normal (VPrimitive (PString "D")).
Proof.
  split.
  - apply (proj1 (absence_law (host := Reference.platform)
                    [call_set "other" (PString "x"); call_remove "k"] "k" (PString "D"))).
    repeat constructor; simpl; [discriminate | tauto].
  - apply (proj2 (absence_law (host := Reference.platform)
                    [call_set "k" (PString "x")] "k" (PString "D"))).
Defined.

(** ** C7 *)

(** C7, counterexample: the slot holds the record of the tag __expr__ and
    the payload a), which is not a pattern; [get] throws and constructs
    nothing. *)
Lemma unbalanced_pattern_not_constructed :
  ({["k" := record "__expr__" "a)"]} : gmap string string) !! "k" =
    Some (record "__expr__" "a)") ∧
  get (host := Reference.platform) {["k" := record "__expr__" "a)"]} "k" undefined =
    Throw RegExpSyntaxError ∧
  get (host := Reference.platform) {["k" := record "__expr__" "a)"]} "k" undefined ≠
    Normal (VRegExp "a)" "").
Proof.
  split; [apply lookup_singleton_eq|].
  split; [vm_compute; reflexivity | vm_compute; discriminate].
Qed.

(** The pattern ab+c with the flags g and i is stored without them and
    reads as the pattern ab+c with no flags. *)
Lemma pattern_flags_dropped_witness :
  set (host := Reference.platform) ∅ "r" (VRegExp "ab+c" "gi") =
    Normal {["r" := "__expr__|ab+c"]} ∧
  get (host := Reference.platform) {["r" := "__expr__|ab+c"]} "r" undefined =
    Normal (VRegExp "ab+c" "").
Proof.
  pose proof (pattern_flags_dropped (host := Reference.platform)
                {["r" := "__expr__|ab+c"]} "r" undefined) as (_ & Hget & _).
  pose proof (pattern_flags_dropped (host := Reference.platform)
                ∅ "r" undefined) as (Hset & _ & _).
  split.
  - rewrite Hset. vm_compute. reflexivity.
  - apply (Hget "__expr__|ab+c"); [apply lookup_singleton_eq | vm_compute; lia | reflexivity..].
Defined.

(** ** C8 *)

(** The slot holds a stored false; the default is returned. *)
Lemma get_never_falsy_witness :
  ToBoolean (VPrimitive (PString "D")) = true ∨
  VPrimitive (PString "D") = VPrimitive (PString "D").
Proof.
  apply (get_never_falsy (host := Reference.platform)
           {["k" := "__bool__|0"]} "k" (PString "D") (PString "D")).
  vm_compute. reflexivity.
Defined.

(** ** C9 *)

(** C9, counterexample: the slot holds the tag __date__, the separator and
    an empty payload, which [Date.parse] does not accept; the string has 9
    characters and [get] returns the default, not the Invalid Date. *)
Lemma empty_date_payload_reads_default :
  ({["k" := "__date__|"]} : gmap string string) !! "k" = Some "__date__|" ∧
  substring "__date__|" 0 8 = "__date__" ∧
  Date_parse (Platform := Reference.platform) (substring_from "__date__|" 9) = None ∧
  get (host := Reference.platform) {["k" := "__date__|"]} "k" (PString "D") =
    Normal (VPrimitive (PString "D")) ∧
  get (host := Reference.platform) {["k" := "__date__|"]} "k" (PString "D") ≠
    Normal (VDate None).
Proof.
  split; [apply lookup_singleton_eq|].
  repeat split; try (vm_compute; reflexivity). vm_compute. discriminate.
Qed.

(** The payload yesterday is no date; the Invalid Date is returned. *)
Lemma unparseable_date_not_masked_witness :
  get (host := Reference.platform) {["k" := "__date__|yesterday"]} "k" (PString "D") =
    Normal (VDate None) ∧
  ToBoolean (VDate None) = true.
Proof.
  apply (unparseable_date_not_masked (host := Reference.platform)
           {["k" := "__date__|yesterday"]} "k" "__date__|yesterday" (PString "D"));
    [apply lookup_singleton_eq | vm_compute; lia | reflexivity | reflexivity].
Defined.

(** ** C10 *)

(** The payload 12px is no numeric literal; the default is returned. *)
Lemma unparseable_number_masked_witness :
  decode (host := Reference.platform) (PString "__numb__|12px") =
    Normal (VPrimitive (PNumber S754_nan)) ∧
  ToBoolean (PNumber S754_nan) = false ∧
  get (host := Reference.platform) {["k" := "__numb__|12px"]} "k" (PString "D") =
    Normal (VPrimitive (PString "D")).
Proof.
  apply (unparseable_number_masked (host := Reference.platform)
           {["k" := "__numb__|12px"]} "k" "__numb__|12px" (PString "D"));
    [apply lookup_singleton_eq | reflexivity | reflexivity].
Defined.

(** ** More on the codec, on the reference platform *)

(** A [set] and a [remove] under b, and the read under a. *)
Lemma writes_keep_other_keys_witness :
  (∀ v storage',
     set (host := Reference.platform) {["a" := "__strn__|x"]} "b" v = Normal storage' →
     get storage' "a" undefined = get {["a" := "__strn__|x"]} "a" undefined) ∧
  get (host := Reference.platform) (remove {["a" := "__strn__|x"]} "b") "a" undefined =
    get {["a" := "__strn__|x"]} "a" undefined.
Proof.
  apply (writes_keep_other_keys (host := Reference.platform)). discriminate.
Defined.

Lemma last_write_wins_witness :
  set (host := Reference.platform) {["k" := "__strn__|a"]} "k" (PString "b") =
  set (host := Reference.platform) ∅ "k" (PString "b").
Proof.
  apply (last_write_wins (host := Reference.platform) ∅ _ "k" (PString "a")).
  vm_compute. reflexivity.
Defined.

Lemma remove_undoes_set_witness :
  remove ({["k" := "__strn__|a"]} : gmap string string) "k" = remove ∅ "k" ∧
  ((∅ : gmap string string) !! "k" = None →
   remove ({["k" := "__strn__|a"]} : gmap string string) "k" = ∅).
Proof.
  apply (remove_undoes_set (host := Reference.platform) ∅ _ "k" (PString "a")).
  vm_compute. reflexivity.
Defined.

Lemma set_writes_a_tag_witness :
  (∃ tag payload, tag ∈ known_tags ∧
     ({["k" := "__bool__|1"]} : gmap string string) !! "k" = Some (record tag payload)) ∨
  (VPrimitive (PBoolean true) = undefined ∧
     ({["k" := "__bool__|1"]} : gmap string string) !! "k" = Some "undefined") ∨
  (VPrimitive (PBoolean true) = VPrimitive PNull ∧
     ({["k" := "__bool__|1"]} : gmap string string) !! "k" = Some "null") ∨
  (∃ z, VPrimitive (PBoolean true) = VPrimitive (PBigInt z) ∧
     ({["k" := "__bool__|1"]} : gmap string string) !! "k" = Some (decimal_of_Z z)).
Proof.
  apply (set_writes_a_tag (host := Reference.platform) ∅ _ "k" (PBoolean true)).
  vm_compute. reflexivity.
Defined.

Lemma function_degrades_to_text_witness :
  set (host := Reference.platform) ∅ "f" (VFunction "() => 1") =
    set ∅ "f" (VPrimitive (PString "() => 1")) ∧
  ∃ storage', set (host := Reference.platform) ∅ "f" (VFunction "() => 1") = Normal storage' ∧
              get storage' "f" undefined = Normal (VPrimitive (PString "() => 1")).
Proof.
  apply (function_degrades_to_text (host := Reference.platform)). discriminate.
Defined.

(** The BigInt 7 reads as the default, the BigInt 12345678901 as the string
    of its digits. *)
Lemma bigint_read_back_witness :
  get (host := Reference.platform) (<["n" := decimal_of_Z 7]> ∅) "n" (PString "D") =
    Normal (VPrimitive (PString "D")) ∧
  get (host := Reference.platform) (<["n" := decimal_of_Z 12345678901]> ∅) "n" (PString "D") =
    Normal (VPrimitive (PString "12345678901")).
Proof.
  split.
  - apply (bigint_read_back (host := Reference.platform) ∅ "n" 7 (PString "D")).
    vm_compute. lia.
  - apply (bigint_read_back (host := Reference.platform) ∅ "n" 12345678901 (PString "D")).
    vm_compute. lia.
Defined.

Lemma separator_not_checked_witness :
  get (host := Reference.platform) {["k" := "__strn__Xhello"]} "k" undefined =
  get (host := Reference.platform)
    (<["k" := record "__strn__" "hello"]> {["k" := "__strn__Xhello"]}) "k" undefined.
Proof.
  apply (separator_not_checked (host := Reference.platform)
           {["k" := "__strn__Xhello"]} "k" "__strn__" "hello" "X" undefined).
  - unfold known_tags. rewrite !elem_of_cons. tauto.
  - apply lookup_singleton_eq.
Defined.

Lemma bool_payload_read_witness :
  get (host := Reference.platform) {["k" := "__bool__|true"]} "k" (PString "D") =
  Normal (if String.eqb (substring_from "__bool__|true" 9) "1"
          then VPrimitive (PBoolean true) else VPrimitive (PString "D")).
Proof.
  apply (bool_payload_read (host := Reference.platform));
    [apply lookup_singleton_eq | vm_compute; lia | reflexivity].
Defined.

Lemma same_second_same_slot_witness :
  set (host := Reference.platform) ∅ "d" (VDate (Some 1000%Z)) =
  set (host := Reference.platform) ∅ "d" (VDate (Some 1999%Z)).
Proof.
  apply (same_second_same_slot (host := Reference.platform)). reflexivity.
Defined.

Lemma plain_values_read_back_witness :
  returns (get (host := Reference.platform) {["n" := "__numb__|-1"]} "n" undefined).
Proof.
  apply (plain_values_read_back (host := Reference.platform) ∅ _ "n" Reference.minus_one);
    [vm_compute; reflexivity | discriminate..].
Defined.

(** An instance made with the storage type Session, with a capital. *)
Lemma other_storage_types_are_local_witness :
  Storage_get (host := Reference.platform) localStorage
    {| session_content := ∅; local_content := {["k" := "__strn__|v"]} |} "k" undefined =
  Storage_get (host := Reference.platform) (constructor (PString "Session"))
    {| session_content := ∅; local_content := {["k" := "__strn__|v"]} |} "k" undefined ∧
  Storage_get (host := Reference.platform) sessionStorage
    {| session_content := ∅; local_content := {["k" := "__strn__|v"]} |} "k" undefined =
  Storage_get (host := Reference.platform) sessionStorage
    {| session_content := ∅; local_content := ∅ |} "k" undefined.
Proof.
  apply (other_storage_types_are_local (host := Reference.platform)
           (PString "Session") {| session_content := ∅; local_content := ∅ |} _
           "k" "k" (PString "v") undefined);
    [discriminate | discriminate | vm_compute; reflexivity].
Defined.

Lemma hooks_share_the_slot_witness :
  proxy_get (host := Reference.platform) (useSessionStorage "k" (PString "D"))
    (hook_remove (useSessionStorage "k" undefined)
       {| session_content := {["k" := "__strn__|v"]}; local_content := ∅ |}) "value" =
    Normal (VPrimitive (PString "D")) ∧
  (∀ s, s ≠ "" →
        ∃ w', hook_setter (host := Reference.platform) (useSessionStorage "k" undefined)
                {| session_content := {["k" := "__strn__|v"]}; local_content := ∅ |}
                (VPrimitive (PString s)) = Normal w' ∧
              proxy_get (host := Reference.platform) (useSessionStorage "k" (PString "D"))
                w' "value" = Normal (VPrimitive (PString s))).
Proof.
  apply (hooks_share_the_slot (host := Reference.platform)
           (useSessionStorage "k" undefined) (useSessionStorage "k" (PString "D")));
    reflexivity.
Defined.
